(** * UQpy: stratified bins, distribution parameters, expected improvement

    A shallow embedding of three classes of the UQpy sources:

    - [Criterion]            (sampling/latin_hypercube_criteria/baseclass/Criterion.py)
    - [Distribution]         (distributions/baseclass/Distribution.py)
    - [ExpectedImprovement]  (sampling/adaptive_kriging_functions/ExpectedImprovement.py)

    Conventions of the embedding.

    - The arithmetic of numpy's [float64] is a parameter of the model, the
      interface [Arith].  The code runs on its instance [Binary64.arith]:
      IEEE 754 binary64 with its rounding, infinities and [nan], Rocq's
      primitive floats.  [Exact.arith] is the same code read over the
      rationals, without rounding.  A statement that holds for every
      [Arith] holds of the code; what holds over the rationals only is said
      to do so.
    - A Python call returns a [result]: a value or a raised exception.
    - [np.random.RandomState] objects are mutable and may be shared between
      samplers, so they live in a store ([objects]) and are held by reference.
      numpy's global generator is a field of the interpreter state.
    - The pseudo-random generator itself (Mersenne twister) is an interface,
      [RandomSource]: any seedable stream of numbers in [0, 1). *)

From Stdlib Require Import QArith Qabs Lqa Lia.
From Stdlib Require Import Floats.
From stdpp Require Import gmap strings list sorting.

(** ** Python values, exceptions and results *)

(** Exceptions.  [ValueError], [IndexError], [RecursionError] and
    [SystemError] are Python's; [ConfigurationError], [InvalidShapeError]
    and [StateError] are the names the specification uses. *)
Inductive exn : Type :=
  | ValueError
  | IndexError
  | RecursionError
  | SystemError
  | ConfigurationError
  | InvalidShapeError
  | StateError.

Inductive result (A : Type) : Type :=
  | Ok (v : A)
  | Raise (e : exn).
Arguments Ok {A} v.
Arguments Raise {A} e.

#[global] Instance result_ret : MRet result := fun _ v => Ok v.
#[global] Instance result_bind : MBind result := fun _ _ f r =>
  match r with
  | Ok v => f v
  | Raise e => Raise e
  end.

(** References to [RandomState] objects in the store. *)
Abbreviation loc := positive (only parsing).

(** The Python values that reach the code as arguments or as distribution
    parameters. *)
Inductive pyobj : Type :=
  | PyNone
  | PyInt (z : Z)
  | PyFloat (q : Q)
  | PyStr (s : string)
  | PyRandomState (l : loc).

(** ** Floating-point arithmetic *)

(** What the code uses of [float64]: conversion from an integer, the four
    operations, the absolute value and the comparisons [<] and [<=].  No
    law is part of the interface: a sum is whatever the arithmetic makes
    of it. *)
Class Arith (F : Type) : Type := {
  of_Z : Z -> F;
  fadd : F -> F -> F;
  fsub : F -> F -> F;
  fmul : F -> F -> F;
  fdiv : F -> F -> F;
  fabs : F -> F;
  fltb : F -> F -> bool;
  fleb : F -> F -> bool
}.

Declare Scope num_scope.
Delimit Scope num_scope with num.
Notation "x + y" := (fadd x y) : num_scope.
Notation "x - y" := (fsub x y) : num_scope.
Notation "x * y" := (fmul x y) : num_scope.
Notation "x / y" := (fdiv x y) : num_scope.
Notation "0" := (of_Z 0) : num_scope.
Notation "1" := (of_Z 1) : num_scope.

(** [nan] is the value that is not below or equal to itself. *)
Definition is_nan {F} `{Arith F} (x : F) : bool := negb (fleb x x).

(** The order of numpy's sorts: that of [<=], with [nan] placed last. *)
Definition sort_le {F} `{Arith F} (x y : F) : bool := is_nan y || fleb x y.

(** The laws of [<=] and [<] that IEEE 754 keeps: away from [nan], [<=]
    is a total preorder and [<] its strict part. *)
Class ArithOrder (F : Type) `{Arith F} : Prop := {
  fleb_refl_l x y : fleb x y = true -> fleb x x = true;
  fleb_refl_r x y : fleb x y = true -> fleb y y = true;
  fleb_trans x y z : fleb x y = true -> fleb y z = true -> fleb x z = true;
  fleb_total x y :
    fleb x x = true -> fleb y y = true -> fleb x y = true \/ fleb y x = true;
  fltb_fleb x y : fltb x y = true -> fleb x y = true;
  fltb_false x y :
    fleb x x = true -> fleb y y = true -> fltb x y = false -> fleb y x = true
}.

(** IEEE 754 binary64, as numpy's [float64] and Python's [float].  The
    integers the code converts are [0], [1] and lengths of arrays;
    [from_Z] is Python's conversion for every integer below [2^63] in
    absolute value. *)
Module Binary64.

Definition from_Z (z : Z) : float :=
  match z with
  | Z0 => PrimFloat.zero
  | Zpos _ => of_uint63 (Uint63.of_Z z)
  | Zneg p => (- of_uint63 (Uint63.of_Z (Zpos p)))%float
  end.

#[global] Instance arith : Arith float := {|
  of_Z := from_Z;
  fadd := PrimFloat.add;
  fsub := PrimFloat.sub;
  fmul := PrimFloat.mul;
  fdiv := PrimFloat.div;
  fabs := PrimFloat.abs;
  fltb := PrimFloat.ltb;
  fleb := PrimFloat.leb
|}.

End Binary64.

(** The rationals: the same operations without rounding.  There is no
    [nan] and no infinity here, and a division by zero gives zero: a run
    that divides by zero is outside what this instance can say. *)
Module Exact.

#[global] Instance arith : Arith Q := {|
  of_Z := inject_Z;
  fadd := Qplus;
  fsub := Qminus;
  fmul := Qmult;
  fdiv := Qdiv;
  fabs := Qabs;
  fltb := fun x y => negb (Qle_bool y x);
  fleb := Qle_bool
|}.

End Exact.

(** ** numpy and scipy *)

(** The generator behind [np.random.RandomState]: seeding, and the next
    double of the stream, which lies in [0, 1). *)
Class RandomSource (F : Type) `{Arith F} : Type := {
  gen : Type;
  RandomState : Z -> gen;
  random_sample : gen -> F * gen;
  random_sample_unit :
    forall g, fleb 0%num (random_sample g).1 = true /\
              fltb (random_sample g).1 1%num = true
}.

(** A 2-D array: its shape, and its rows.  The shape is kept apart from the
    rows because a [(0, d)] array has no row to read [d] from. *)
Record matrix (F : Type) : Type := {
  nrows : nat;
  ncols : nat;
  entries : list (list F)
}.
Arguments nrows {F} _.
Arguments ncols {F} _.
Arguments entries {F} _.

(** An array of any dimension, as [create_bins] receives it. *)
Record ndarray (F : Type) : Type := {
  shape : list nat;
  data : list F
}.
Arguments shape {F} _.
Arguments data {F} _.

Module np.
Section np.
Context {F : Type} `{Arith F}.

(** [np.zeros(shape=(n, d))] *)
Definition zeros (n d : nat) : matrix F :=
  {| nrows := n; ncols := d; entries := replicate n (replicate d 0%num) |}.

(** [np.zeros_like(u)] *)
Definition zeros_like (u : matrix F) : matrix F := zeros (nrows u) (ncols u).

(** [m[:, j] = col] for a column [col] of [nrows m] values. *)
Definition set_column (j : nat) (col : list F) (m : matrix F) : matrix F :=
  {| nrows := nrows m; ncols := ncols m;
     entries := zip_with (fun row x => <[j := x]> row) (entries m) col |}.

(** [m[i, j]] *)
Definition get (m : matrix F) (i j : nat) : option F :=
  entries m !! i ≫= (.!! j).

(** [m[:, j]] *)
Definition column (j : nat) (m : matrix F) : list F :=
  omap (.!! j) (entries m).

(** [np.linspace(start, stop, num)], endpoint included: [arange(0, num)]
    scaled by [step = (stop - start) / (num - 1)], shifted by [start], and
    the last value set to [stop].  (numpy scales in two steps when [step]
    underflows to zero, which a step of [1 / n] does not.) *)
Definition linspace (start stop : F) (num : nat) : list F :=
  let div := (num - 1)%nat in
  let delta := (stop - start)%num in
  let y := of_Z ∘ Z.of_nat <$> seq 0 num in
  let y :=
    if bool_decide (0 < div)%nat
    then (fun k => k * (delta / of_Z (Z.of_nat div)))%num <$> y
    else (fun k => k * delta)%num <$> y in
  let y := (fun k => k + start)%num <$> y in
  if bool_decide (1 < num)%nat then <[(num - 1)%nat := stop]> y else y.

(** Element-wise arithmetic on 1-D arrays of equal length. *)
Definition sub (x y : list F) : list F := zip_with fsub x y.
Definition mul (x y : list F) : list F := zip_with fmul x y.
Definition add (x y : list F) : list F := zip_with fadd x y.

End np.
End np.

(** The interpreter state the samplers run in: numpy's global generator
    ([np.random.mtrand._rand]) and the [RandomState] objects allocated so
    far. *)
Record world {F : Type} `{RandomSource F} : Type := {
  mtrand_rand : gen;
  objects : gmap loc gen
}.

Module stats.
Section uniform.
Context {F : Type} `{RandomSource F}.

(** [np.random.RandomState(seed)] for an integer seed: numpy accepts the
    seeds from [0] to [2^32 - 1] and raises [ValueError] for any other. *)
Definition seeded (seed : Z) : result gen :=
  if bool_decide (0 <= seed <= 2 ^ 32 - 1)%Z
  then Ok (RandomState seed)
  else Raise ValueError.

(** [size] consecutive doubles of a generator, and the generator after
    them. *)
Fixpoint random_samples (size : nat) (g : gen) : list F * gen :=
  match size with
  | O => ([], g)
  | S k =>
      let '(x, g1) := random_sample g in
      let '(xs, g2) := random_samples k g1 in
      (x :: xs, g2)
  end.

(** scipy's [check_random_state]: [None] is numpy's global generator, an
    [int] seeds a generator for this call, a [RandomState] is itself;
    anything else is a [ValueError].  A reference to an object that was
    never allocated cannot arise in Python; the model answers it with
    [SystemError]. *)
Definition check_random_state (w : world) (random_state : pyobj) : result gen :=
  match random_state with
  | PyNone => Ok (mtrand_rand w)
  | PyInt seed => seeded seed
  | PyRandomState l =>
      match objects w !! l with
      | Some g => Ok g
      | None => Raise SystemError
      end
  | _ => Raise ValueError
  end.

(** The generator drawn from is advanced in place. *)
Definition advance (w : world) (random_state : pyobj) (g : gen) : world :=
  match random_state with
  | PyNone => {| mtrand_rand := g; objects := objects w |}
  | PyRandomState l => {| mtrand_rand := mtrand_rand w; objects := <[l := g]> (objects w) |}
  | _ => w
  end.

(** [stats.uniform.rvs(size=size, random_state=random_state)] with the
    default [loc = 0] and [scale = 1]: [size] draws of the generator.
    (scipy multiplies a draw by the scale [1.0] and adds the location
    [0.0], which in binary64 leaves a number of [0, 1) as it is.) *)
Definition uniform_rvs (size : nat) (random_state : pyobj) (w : world)
  : result (list F * world) :=
  g ← check_random_state w random_state;
  let '(xs, g') := random_samples size g in
  Ok (xs, advance w random_state g').

End uniform.
End stats.

(** ** Criterion *)

Module Criterion.
Section Criterion.
Context {F : Type} `{RandomSource F}.

(** The attributes [a] and [b] hold the Python integer [0] after
    construction and a 1-D array once [create_bins] has run. *)
Inductive attr : Type :=
  | Scalar (z : Z)
  | Array (v : list F).

(** An attribute as an operand of arithmetic on arrays of length [n]:
    a scalar is broadcast. *)
Definition broadcast (n : nat) (x : attr) : list F :=
  match x with
  | Scalar z => replicate n (of_Z z)
  | Array v => v
  end.

Record t : Type := {
  a : attr;
  b : attr;
  samples : matrix F;
  random_state : pyobj
}.

(** Modelled from the spec: the decorator [check_random_state] of
    [UQpy.utilities.validation.Validations], which is not among the
    sources.  The specification accepts an integer seed, a generator
    instance or nothing, and fails with [ConfigurationError] on a value
    of any other type. *)
Definition check_random_state (random_state : pyobj) : result unit :=
  match random_state with
  | PyNone | PyInt _ | PyRandomState _ => Ok ()
  | _ => Raise ConfigurationError
  end.

(** The body wraps an integer into [np.random.RandomState(seed)], which
    raises [ValueError] for a seed numpy does not accept, and keeps any
    other value as it is. *)
Definition __init__ (w : world) (random_state : pyobj) : result (world * t) :=
  _ ← check_random_state random_state;
  match random_state with
  | PyInt seed =>
      g ← stats.seeded seed;
      let l := fresh (dom (objects w)) in
      Ok ({| mtrand_rand := mtrand_rand w; objects := <[l := g]> (objects w) |},
          {| a := Scalar 0; b := Scalar 0; samples := np.zeros 0 0;
             random_state := PyRandomState l |})
  | _ =>
      Ok (w, {| a := Scalar 0; b := Scalar 0; samples := np.zeros 0 0;
                random_state := random_state |})
  end.

(** [samples.shape[k]]: a tuple index out of range is an [IndexError]. *)
Definition shape_at (samples : ndarray F) (k : nat) : result nat :=
  match shape samples !! k with
  | Some n => Ok n
  | None => Raise IndexError
  end.

(** The loop of [create_bins] over the columns still to fill; [u] is the
    local array of draws.  An exception leaves the sampler as it is at
    that point. *)
Fixpoint fill_columns (cols : list nat) (n : nat) (u : matrix F)
    (w : world) (self : t) : world * t * result unit :=
  match cols with
  | [] => (w, self, Ok ())
  | i :: cols =>
      match stats.uniform_rvs n (random_state self) w with
      | Raise e => (w, self, Raise e)
      | Ok (col, w) =>
          let u := np.set_column i col u in
          let stratified :=
            np.add
              (np.mul (np.column i u)
                 (np.sub (broadcast n (b self)) (broadcast n (a self))))
              (broadcast n (a self)) in
          fill_columns cols n u w
            {| a := a self; b := b self;
               samples := np.set_column i stratified (samples self);
               random_state := random_state self |}
      end
  end.

Definition create_bins (w : world) (self : t) (samples_arg : ndarray F)
  : world * t * result unit :=
  match shape_at samples_arg 0 with
  | Raise e => (w, self, Raise e)
  | Ok samples_number =>
      let cut := np.linspace 0%num 1%num (samples_number + 1) in
      let self :=
        {| a := Array (take samples_number cut);
           b := Array (take samples_number (drop 1 cut));
           samples := samples self;
           random_state := random_state self |} in
      match shape_at samples_arg 1 with
      | Raise e => (w, self, Raise e)
      | Ok d =>
          let u := np.zeros samples_number d in
          let self :=
            {| a := a self; b := b self; samples := np.zeros_like u;
               random_state := random_state self |} in
          fill_columns (seq 0 d) samples_number u w self
      end
  end.

(** The abstract method: its body is [pass].  This is what runs when the
    method of the base class is called on a sampler of some variant. *)
Definition generate_samples (w : world) (self : t) : world * t * result pyobj :=
  (w, self, Ok PyNone).

(** Modelled from the spec: [generate_samples] as a variant supplies it;
    the classes that override the abstract method are not among the
    sources.  The specification has it consume the stratum bounds and
    the stratified matrix that [createBins] produced and return the final
    matrix after the variant's own rearrangement ([policy] here), and has
    it fail with [StateError] when it is called before [createBins] has
    established stratum bounds.  The bounds are established when [a] and
    [b] hold arrays: construction leaves the integer [0] in both. *)
Definition generate_samples_of (policy : list F -> list F -> matrix F -> matrix F)
    (w : world) (self : t) : world * t * result (matrix F) :=
  match a self, b self with
  | Array av, Array bv => (w, self, Ok (policy av bv (samples self)))
  | _, _ => (w, self, Raise StateError)
  end.

(** A sampler's random source is usable in [w]: nothing, or a generator
    that exists.  Every constructed sampler has one ([init_usable]). *)
Definition usable (w : world) (random_state : pyobj) : bool :=
  match random_state with
  | PyNone => true
  | PyRandomState l => bool_decide (is_Some (objects w !! l))
  | _ => false
  end.

End Criterion.

Arguments attr : clear implicits.
Arguments t : clear implicits.

End Criterion.

(** ** Distribution *)

Module Distribution.

(** The instance attributes behind the two properties.  [ordered_parameters]
    is [None], or a sequence of names. *)
Record t : Type := {
  _parameters : gmap string pyobj;
  _ordered_parameters : option (list string)
}.

(** The setters: [self._parameters = value] and
    [self._ordered_parameters = value]. *)
Definition set_parameters (self : t) (value : gmap string pyobj) : t :=
  {| _parameters := value; _ordered_parameters := _ordered_parameters self |}.

Definition set_ordered_parameters (self : t) (value : option (list string)) : t :=
  {| _parameters := _parameters self; _ordered_parameters := value |}.

(** The getter of the property [parameters]: its body is
    [return self.parameters], which reads the property again.  [frames] is
    the number of calls the interpreter still allows before it raises
    [RecursionError]. *)
Fixpoint parameters (frames : nat) (self : t) : result (gmap string pyobj) :=
  match frames with
  | O => Raise RecursionError
  | S frames => parameters frames self
  end.

(** The getter of [ordered_parameters]: [return self.ordered_parameters]. *)
Fixpoint ordered_parameters (frames : nat) (self : t) : result (option (list string)) :=
  match frames with
  | O => Raise RecursionError
  | S frames => ordered_parameters frames self
  end.

Section attribute.
(** How the attribute [self.parameters] is read. *)
Variable read : t -> result (gmap string pyobj).

(** [get_parameters]: [return self.parameters]. *)
Definition get_parameters_with (self : t) : result (gmap string pyobj) :=
  read self.

(** The loop of [update_parameters] over the keywords, in argument order.
    The dictionary is updated in place, so what was written before an
    exception stays written: the object is returned beside the outcome. *)
Fixpoint update_parameters_with (kwargs : list (string * pyobj)) (self : t)
  : t * result unit :=
  match kwargs with
  | [] => (self, Ok ())
  | (key, value) :: kwargs =>
      match get_parameters_with self with
      | Raise e => (self, Raise e)
      | Ok known =>
          if bool_decide (key ∈ dom known)
          then
            match read self with
            | Raise e => (self, Raise e)
            | Ok d => update_parameters_with kwargs (set_parameters self (<[key := value]> d))
            end
          else (self, Raise ValueError)
      end
  end.

End attribute.

(** The methods of the class, reading the attribute through its property. *)
Definition get_parameters (frames : nat) (self : t) : result (gmap string pyobj) :=
  get_parameters_with (parameters frames) self.

Definition update_parameters (frames : nat) (self : t) (kwargs : list (string * pyobj))
  : t * result unit :=
  update_parameters_with (parameters frames) kwargs self.

(** [__init__(self, ordered_parameters=None, **kwargs)], on a new object
    whose attributes are not set yet ([blank]). *)
Definition blank : t := {| _parameters := ∅; _ordered_parameters := None |}.

Definition __init__ (frames : nat) (ordered : option (list string))
    (kwargs : list (string * pyobj)) : t * result unit :=
  let self := set_parameters blank (list_to_map kwargs) in
  let self := set_ordered_parameters self ordered in
  match ordered_parameters frames self with
  | Raise e => (self, Raise e)
  | Ok o =>
      let self :=
        match o with
        | None => set_ordered_parameters self (Some kwargs.*1)
        | Some _ => self
        end in
      match ordered_parameters frames self, parameters frames self with
      | Raise e, _ => (self, Raise e)
      | Ok _, Raise e => (self, Raise e)
      | Ok o, Ok d =>
          if bool_decide (length (default [] o) ≠ size d)
          then (self, Raise ValueError)
          else (self, Ok ())
      end
  end.

(** The attribute read as the setters write it ([return self._parameters]):
    what the getter would be without the self-reference.  It is used only to
    state what the loop of [update_parameters] does on its own. *)
Definition stored (self : t) : result (gmap string pyobj) := Ok (_parameters self).

End Distribution.

(** ** ExpectedImprovement *)

(** [np.argsort]: the indices that sort an array, [nan] last.  numpy's
    default sort is not stable, so nothing is fixed about the order of
    equal values. *)
Class ArgSort (F : Type) `{Arith F} : Type := {
  argsort : list F -> list nat;
  argsort_perm : forall l, argsort l ≡ₚ seq 0 (length l);
  argsort_sorted : forall l i j x y,
    (i <= j)%nat ->
    (argsort l !! i ≫= (l !!.)) = Some x ->
    (argsort l !! j ≫= (l !!.)) = Some y ->
    sort_le x y = true
}.

Module ExpectedImprovement.
Section ExpectedImprovement.
Context {F : Type} `{ArgSort F}.
(** [scipy.stats.norm.cdf] and [scipy.stats.norm.pdf]. *)
Variables norm_cdf norm_pdf : F -> F.

Record t : Type := {
  surrogate : matrix F -> bool -> list F * list F;
  pop : matrix F;
  n_add : Z;
  eif_stop : F;
  qoi : list F
}.

(** [x.reshape([n, 1])] of an array given by its values: a [ValueError]
    unless there are [n] of them. *)
Definition reshape (x : list F) (n : nat) : result (list F) :=
  if bool_decide (length x = n) then Ok x else Raise ValueError.

(** Python's [min] and [max] of a sequence: the item kept is replaced by
    a later one that compares below ([<]), respectively above ([>]), it;
    a [ValueError] when the sequence is empty. *)
Definition min (l : list F) : result F :=
  match l with
  | [] => Raise ValueError
  | x :: l => Ok (fold_left (fun m y => if fltb y m then y else m) l x)
  end.

Definition max (l : list F) : result F :=
  match l with
  | [] => Raise ValueError
  | x :: l => Ok (fold_left (fun m y => if fltb m y then y else m) l x)
  end.

(** [l[start:]] with Python's reading of a negative or too large start. *)
Definition slice_from {A} (start : Z) (l : list A) : list A :=
  let n := Z.of_nat (length l) in
  let start := if (start <? 0)%Z then Z.max (start + n) 0 else Z.min start n in
  drop (Z.to_nat start) l.

(** The expected improvement of one point, from the prediction [g], its
    standard deviation [sig] and the best evaluation [fm]. *)
Definition eif_of (fm g sig : F) : F :=
  ((fm - g) * norm_cdf ((fm - g) / sig) + sig * norm_pdf ((fm - g) / sig))%num.

(** [x[rows, :]]: the rows of [x] at the given indices; an index out of
    range is an [IndexError]. *)
Definition take_rows (rows : list nat) (x : matrix F) : result (matrix F) :=
  match mapM (entries x !!.) rows with
  | Some picked => Ok {| nrows := length rows; ncols := ncols x; entries := picked |}
  | None => Raise IndexError
  end.

Definition evaluate_function (self : t)
  : result (matrix F * matrix F * bool) :=
  let '(g, sig) := surrogate self (pop self) true in
  g ← reshape g (nrows (pop self));
  sig ← reshape sig (nrows (pop self));
  fm ← min (qoi self);
  let eif := zip_with (eif_of fm) g sig in
  let rows := slice_from (Z.of_nat (length g) - n_add self) (argsort eif) in
  top ← max eif;
  let stopping_criteria_indicator := fleb (top / fabs fm)%num (eif_stop self) in
  new_samples ← take_rows rows (pop self);
  learning_function_values ←
    take_rows rows {| nrows := length eif; ncols := 1; entries := (fun x => [x]) <$> eif |};
  Ok (new_samples, learning_function_values, stopping_criteria_indicator).

End ExpectedImprovement.

Arguments t : clear implicits.

End ExpectedImprovement.

(** * Vocabulary of the statements *)

(** A 2-D array is well formed when its rows are as its shape says. *)
Definition wf_matrix {F} (m : matrix F) : Prop :=
  length (entries m) = nrows m /\ Forall (fun row => length row = ncols m) (entries m).

(** The step of [np.linspace(0, 1, n + 1)], and the bounds [create_bins]
    computes for [n] rows. *)
Definition unit_step {F} `{Arith F} (n : nat) : F := ((1 - 0) / of_Z (Z.of_nat n))%num.

Definition lower_bounds {F} `{Arith F} (n : nat) : list F :=
  take n (np.linspace 0%num 1%num (n + 1)).
Definition upper_bounds {F} `{Arith F} (n : nat) : list F :=
  take n (drop 1 (np.linspace 0%num 1%num (n + 1))).

(** [u * (b - a) + a], element-wise. *)
Definition stratify {F} `{Arith F} (av bv col : list F) : list F :=
  np.add (np.mul col (np.sub bv av)) av.

(** Columns written from column [j] on, left to right. *)
Fixpoint write_columns {F} (j : nat) (cols : list (list F)) (m : matrix F) : matrix F :=
  match cols with
  | [] => m
  | col :: cols => write_columns (S j) cols (np.set_column j col m)
  end.

Section draws.
Context {F : Type} `{RandomSource F}.

(** [k] batches of [n] draws each, and the generator after them. *)
Fixpoint draw_columns (k n : nat) (g : gen) : list (list F) * gen :=
  match k with
  | O => ([], g)
  | S k =>
      let '(col, g1) := stats.random_samples n g in
      let '(cols, g2) := draw_columns k n g1 in
      (col :: cols, g2)
  end.

End draws.

(** A sampler on which [create_bins] has never been called: it has been
    constructed, and since then only [generate_samples] has been called
    on it, the method of the base class or that of a variant; no other
    method exists. *)
Inductive unbinned {F : Type} `{RandomSource F} : Criterion.t F -> Prop :=
  | unbinned_init w random_state w' self :
      Criterion.__init__ w random_state = Ok (w', self) -> unbinned self
  | unbinned_pass w self :
      unbinned self -> unbinned (Criterion.generate_samples w self).1.2
  | unbinned_generate policy w self :
      unbinned self -> unbinned (Criterion.generate_samples_of policy w self).1.2.

(** The fraction [i / n]. *)
Definition ratio (i n : nat) : Q := (inject_Z (Z.of_nat i) / inject_Z (Z.of_nat n))%Q.

(** The keywords written into a dictionary one by one, in order. *)
Definition write_all (kwargs : list (string * pyobj)) (d : gmap string pyobj)
  : gmap string pyobj :=
  foldl (fun d kv => <[kv.1 := kv.2]> d) d kwargs.

(** * Instances for concrete runs *)

(** ** The order of the two arithmetics *)

Module ExactOrder.

#[global] Instance order : ArithOrder Q.
Proof.
  split; simpl.
  - intros x y _. apply Qle_bool_iff, Qle_refl.
  - intros x y _. apply Qle_bool_iff, Qle_refl.
  - intros x y z Hxy%Qle_bool_iff Hyz%Qle_bool_iff.
    apply Qle_bool_iff. by eapply Qle_trans.
  - intros x y _ _. destruct (Qlt_le_dec y x) as [Hlt|Hle].
    + right. by apply Qle_bool_iff, Qlt_le_weak.
    + left. by apply Qle_bool_iff.
  - intros x y Hlt. apply negb_true_iff in Hlt.
    apply Qle_bool_iff, Qlt_le_weak, Qnot_le_lt.
    intros Hle%Qle_bool_iff. congruence.
  - intros x y _ _ Hlt. by apply negb_false_iff in Hlt.
Qed.

End ExactOrder.

Module Binary64Order.

Lemma SFleb_refl_l x y : SFleb x y = true -> SFleb x x = true.
Proof.
  unfold SFleb. destruct x as [s|s| |s m e]; simpl; try done; try by destruct s.
  intros _. destruct s; rewrite Z.compare_refl, ?Pos.compare_cont_refl; done.
Qed.

Lemma SFleb_refl_r x y : SFleb x y = true -> SFleb y y = true.
Proof.
  unfold SFleb. destruct y as [s|s| |s m e]; simpl; try done; try by destruct s.
  - by destruct x.
  - intros _. destruct s; rewrite Z.compare_refl, ?Pos.compare_cont_refl; done.
Qed.

(** [SFcompare] is the lexicographic order of sign, exponent and
    mantissa: its cases come down to comparisons of integers. *)
Ltac compare_cases :=
  repeat match goal with
  | |- context [Z.compare ?a ?b] => destruct (Z.compare_spec a b)
  | H : context [Z.compare ?a ?b] |- _ => destruct (Z.compare_spec a b)
  | |- context [Pos.compare_cont Eq ?a ?b] =>
      change (Pos.compare_cont Eq a b) with (Pos.compare a b);
      destruct (Pos.compare_spec a b)
  | H : context [Pos.compare_cont Eq ?a ?b] |- _ =>
      change (Pos.compare_cont Eq a b) with (Pos.compare a b) in H;
      destruct (Pos.compare_spec a b)
  end; simpl in *; try done; try lia.

Lemma SFleb_trans x y z : SFleb x y = true -> SFleb y z = true -> SFleb x z = true.
Proof.
  unfold SFleb.
  destruct x as [[]|[]| |[] mx ex], y as [[]|[]| |[] my ey], z as [[]|[]| |[] mz ez];
    simpl; try done; compare_cases.
Qed.

Lemma SFleb_total x y :
  SFleb x x = true -> SFleb y y = true -> SFleb x y = true \/ SFleb y x = true.
Proof.
  unfold SFleb.
  destruct x as [[]|[]| |[] mx ex], y as [[]|[]| |[] my ey];
    simpl; try done; auto; intros _ _; compare_cases; auto.
Qed.

Lemma SFltb_SFleb x y : SFltb x y = true -> SFleb x y = true.
Proof. unfold SFltb, SFleb. by destruct (SFcompare x y) as [[]|]. Qed.

Lemma SFltb_false x y :
  SFleb x x = true -> SFleb y y = true -> SFltb x y = false -> SFleb y x = true.
Proof.
  unfold SFleb, SFltb.
  destruct x as [[]|[]| |[] mx ex], y as [[]|[]| |[] my ey];
    simpl; try done; intros _ _; compare_cases.
Qed.

#[global] Instance order : ArithOrder float.
Proof.
  split; simpl; intros *; rewrite ?leb_spec, ?ltb_spec.
  - apply SFleb_refl_l.
  - apply SFleb_refl_r.
  - apply SFleb_trans.
  - apply SFleb_total.
  - apply SFltb_SFleb.
  - apply SFltb_false.
Qed.

End Binary64Order.

(** ** Generators

    A list of scripted draws, followed by a linear congruential stream;
    a scripted value outside [0, 1) is replaced by [0]. *)
Module Scripted.

Definition clamp (x : Q) : Q :=
  if Qle_bool 0 x && negb (Qle_bool 1 x) then x else 0%Q.

Definition next (g : list Q * Z) : Q * (list Q * Z) :=
  match g with
  | (x :: script, z) => (clamp x, (script, z))
  | ([], z) =>
      ((z `mod` 2 ^ 31) # (2 ^ 31),
       ([], (1103515245 * z + 12345) `mod` 2 ^ 31)%Z)
  end.

Lemma next_unit g : (0 <= (next g).1)%Q /\ ((next g).1 < 1)%Q.
Proof.
  destruct g as [[|x script] z]; simpl.
  - pose proof (Z.mod_pos_bound z (2 ^ 31) eq_refl) as [Hlo Hhi].
    unfold Qle, Qlt; simpl. lia.
  - unfold clamp.
    destruct (Qle_bool 0 x) eqn:Hlo, (Qle_bool 1 x) eqn:Hhi; simpl; try done.
    split; [by apply Qle_bool_iff|].
    apply Qnot_le_lt. intros Hle%Qle_bool_iff. congruence.
Qed.

Lemma next_unit_bool g :
  fleb 0%num (next g).1 = true /\ fltb (next g).1 1%num = true.
Proof.
  destruct (next_unit g) as [Hlo Hhi]. simpl. split.
  - by apply Qle_bool_iff.
  - apply negb_true_iff. destruct (Qle_bool 1 (next g).1) eqn:Hle; [|done].
    apply Qle_bool_iff in Hle. by apply Qlt_not_le in Hhi.
Qed.

#[global] Instance source : RandomSource Q := {|
  gen := list Q * Z;
  RandomState seed := ([], seed `mod` 2 ^ 31)%Z;
  random_sample := next;
  random_sample_unit := next_unit_bool
|}.

(** An interpreter in which nothing has been allocated yet, and one whose
    global generator is about to give the draws [script]. *)
Definition fresh_world : world (F := Q) :=
  @Build_world Q _ _ ([], 0%Z) ∅.

Definition scripted_world (script : list Q) : world (F := Q) :=
  @Build_world Q _ _ (script, 0%Z) ∅.

(** A sampler as [Criterion(random_state=None)] constructs it. *)
Definition sampler : Criterion.t Q :=
  {| Criterion.a := Criterion.Scalar 0; Criterion.b := Criterion.Scalar 0;
     Criterion.samples := np.zeros 0 0; Criterion.random_state := PyNone |}.

(** An input array of shape [(n, d)]. *)
Definition input (n d : nat) : ndarray Q :=
  {| shape := [n; d]; data := replicate (n * d) 0.5%Q |}.

End Scripted.

(** The same in binary64. *)
Module Scripted64.

Definition clamp (x : float) : float :=
  if ((0 <=? x) && (x <? 1))%float then x else 0%float.

Definition next (g : list float * Z) : float * (list float * Z) :=
  match g with
  | (x :: script, z) => (clamp x, (script, z))
  | ([], z) =>
      (clamp (Binary64.from_Z (z `mod` 2 ^ 31) / Binary64.from_Z (2 ^ 31))%float,
       ([], (1103515245 * z + 12345) `mod` 2 ^ 31)%Z)
  end.

Lemma clamp_unit x : (0 <=? clamp x)%float = true /\ (clamp x <? 1)%float = true.
Proof.
  unfold clamp.
  destruct (0 <=? x)%float eqn:Hlo, (x <? 1)%float eqn:Hhi; simpl; done.
Qed.

Lemma next_unit64 g :
  fleb 0%num (next g).1 = true /\ fltb (next g).1 1%num = true.
Proof. destruct g as [[|x script] z]; simpl; apply clamp_unit. Qed.

#[global] Instance source : RandomSource float := {|
  gen := list float * Z;
  RandomState seed := ([], seed `mod` 2 ^ 31)%Z;
  random_sample := next;
  random_sample_unit := next_unit64
|}.

Definition fresh_world : world (F := float) :=
  @Build_world float _ _ ([], 0%Z) ∅.

Definition scripted_world (script : list float) : world (F := float) :=
  @Build_world float _ _ (script, 0%Z) ∅.

Definition sampler : Criterion.t float :=
  {| Criterion.a := Criterion.Scalar 0; Criterion.b := Criterion.Scalar 0;
     Criterion.samples := np.zeros 0 0; Criterion.random_state := PyNone |}.

Definition input (n d : nat) : ndarray float :=
  {| shape := [n; d]; data := replicate (n * d) 0.5%float |}.

End Scripted64.

(** ** A sort, and stand-ins for the normal distribution *)

(** A sort to run [np.argsort] with: merge sort of the indices by value,
    in the order [sort_le]. *)
Module Sorter.
Section Sorter.
Context {F : Type} `{ArithOrder F}.

Definition key (l : list F) (i : nat) : F := default 0%num (l !! i).

Definition by_key (l : list F) : relation nat :=
  fun i j => sort_le (key l i) (key l j) = true.

#[global] Instance by_key_dec l i j : Decision (by_key l i j).
Proof. unfold by_key. apply _. Defined.

Lemma sort_le_refl (x : F) : sort_le x x = true.
Proof. unfold sort_le, is_nan. by destruct (fleb x x). Qed.

Lemma sort_le_trans (x y z : F) :
  sort_le x y = true -> sort_le y z = true -> sort_le x z = true.
Proof.
  unfold sort_le, is_nan. intros Hxy Hyz.
  destruct (fleb z z) eqn:Hz; simpl in *; [|done].
  rewrite (fleb_refl_l _ _ Hyz) in Hxy. simpl in Hxy.
  by eapply fleb_trans.
Qed.

Lemma sort_le_total (x y : F) : sort_le x y = true \/ sort_le y x = true.
Proof.
  unfold sort_le, is_nan.
  destruct (fleb x x) eqn:Hx, (fleb y y) eqn:Hy; simpl; auto.
  by apply fleb_total.
Qed.

#[global] Instance by_key_refl l : Reflexive (by_key l).
Proof. intros i. apply sort_le_refl. Qed.

#[global] Instance by_key_trans l : Transitive (by_key l).
Proof. intros i j k. apply sort_le_trans. Qed.

#[global] Instance by_key_total l : Total (by_key l).
Proof. intros i j. apply sort_le_total. Qed.

Definition sort (l : list F) : list nat := merge_sort (by_key l) (seq 0 (length l)).

Lemma StronglySorted_lookup_le {A} (R : relation A) `{!Reflexive R} l i j x y :
  StronglySorted R l -> (i <= j)%nat ->
  l !! i = Some x -> l !! j = Some y -> R x y.
Proof.
  intros Hsorted. revert i j.
  induction Hsorted as [|z l _ IH Hall]; intros i j Hij Hi Hj.
  - by rewrite lookup_nil in Hi.
  - destruct i as [|i], j as [|j]; simplify_eq/=; try lia.
    + reflexivity.
    + rewrite Forall_forall in Hall. apply Hall.
      apply list_elem_of_lookup. eauto.
    + apply (IH i j); [lia|done..].
Qed.

Lemma sort_sorted l i j x y :
  (i <= j)%nat ->
  (sort l !! i ≫= (l !!.)) = Some x ->
  (sort l !! j ≫= (l !!.)) = Some y ->
  sort_le x y = true.
Proof.
  intros Hij Hx Hy.
  destruct (sort l !! i) as [a|] eqn:Ha; simplify_eq/=.
  destruct (sort l !! j) as [b|] eqn:Hb; simplify_eq/=.
  assert (by_key l a b) as Hab.
  { apply (StronglySorted_lookup_le (by_key l) (sort l) i j); try done.
    apply StronglySorted_merge_sort; apply _. }
  unfold by_key, key in Hab. by rewrite Hx, Hy in Hab.
Qed.

#[global] Instance argsort : ArgSort F := {|
  argsort := sort;
  argsort_perm l := merge_sort_Permutation (by_key l) (seq 0 (length l));
  argsort_sorted := sort_sorted
|}.

End Sorter.
End Sorter.

(** Rational functions standing in for the normal distribution function
    and density (like them, they give [nan] at [nan] in binary64), a
    surrogate that predicts the first coordinate with deviation one, and a
    population of three points. *)
Module Standin.
Section Standin.
Context {F : Type} `{Arith F}.

Definition cdf (x : F) : F :=
  (1 / of_Z 2 + x / (of_Z 2 * (1 + fabs x)))%num.
Definition pdf (x : F) : F :=
  (1 / (of_Z 2 * (1 + fabs x) * (1 + fabs x)))%num.

Definition first_coordinate (x : matrix F) (return_std : bool) : list F * list F :=
  ((fun row => default 0%num (head row)) <$> entries x, (fun _ => 1%num) <$> entries x).

(** A surrogate that predicts the first coordinate with the second as its
    deviation. *)
Definition both_coordinates (x : matrix F) (return_std : bool) : list F * list F :=
  ((fun row => default 0%num (row !! 0%nat)) <$> entries x,
   (fun row => default 0%num (row !! 1%nat)) <$> entries x).

Definition learner : ExpectedImprovement.t F :=
  {| ExpectedImprovement.surrogate := first_coordinate;
     ExpectedImprovement.pop :=
       {| nrows := 3; ncols := 2;
          entries := [[of_Z 3; 0]; [1; 0]; [of_Z 2; 1]]%num |};
     ExpectedImprovement.n_add := 2;
     ExpectedImprovement.eif_stop := (1 / of_Z 100)%num;
     ExpectedImprovement.qoi := [of_Z 2; 1; of_Z 3]%num |}.

End Standin.
End Standin.

(** A learner that asks for four points of a population of three. *)
Definition greedy_learner : ExpectedImprovement.t float :=
  {| ExpectedImprovement.surrogate := Standin.first_coordinate;
     ExpectedImprovement.pop :=
       {| nrows := 3; ncols := 2; entries := [[3; 0]; [1; 0]; [2; 1]]%float |};
     ExpectedImprovement.n_add := 4;
     ExpectedImprovement.eif_stop := 0x1p-7%float;
     ExpectedImprovement.qoi := [2; 1; 3]%float |}.

(** A population of two points: the surrogate predicts [1] with deviation
    [0] at the first and [2] with deviation [1] at the second; the best
    evaluation so far is [1]. *)
Definition degenerate_learner : ExpectedImprovement.t float :=
  {| ExpectedImprovement.surrogate := Standin.both_coordinates;
     ExpectedImprovement.pop :=
       {| nrows := 2; ncols := 2; entries := [[1; 0]; [2; 1]]%float |};
     ExpectedImprovement.n_add := 1;
     ExpectedImprovement.eif_stop := 0x1p-7%float;
     ExpectedImprovement.qoi := [1]%float |}.

(** One point, predicted at [-1] with deviation [1], when the best
    evaluation so far is [0]. *)
Definition zero_minimum_learner : ExpectedImprovement.t float :=
  {| ExpectedImprovement.surrogate := Standin.both_coordinates;
     ExpectedImprovement.pop :=
       {| nrows := 1; ncols := 2; entries := [[-1; 1]]%float |};
     ExpectedImprovement.n_add := 1;
     ExpectedImprovement.eif_stop := 0x1p-7%float;
     ExpectedImprovement.qoi := [0; 2]%float |}.

(** A distribution with parameters [loc] and [scale], and the update
    [update_parameters(loc=2.0)]. *)
Definition normal_parameters : Distribution.t :=
  {| Distribution._parameters :=
       <["loc" := PyFloat 0]> (<["scale" := PyFloat 1]> ∅);
     Distribution._ordered_parameters := Some ["loc"; "scale"] |}.

(** * Facts *)

(** ** Arrays *)

Section arrays.
Context {F : Type} `{Arith F}.

Lemma zeros_wf n d : wf_matrix (np.zeros n d).
Proof.
  split; simpl.
  - by rewrite length_replicate.
  - apply Forall_replicate. by rewrite length_replicate.
Qed.

Lemma set_column_wf j (col : list F) m :
  wf_matrix m -> length col = nrows m -> wf_matrix (np.set_column j col m).
Proof.
  intros [Hrows Hcols] Hcol. split; simpl.
  - rewrite length_zip_with. lia.
  - apply Forall_forall. intros row' Hin.
    apply list_elem_of_lookup in Hin as [i Hi].
    rewrite lookup_zip_with in Hi.
    destruct (entries m !! i) as [row|] eqn:Hrow; simplify_eq/=.
    destruct (col !! i) as [x|]; simplify_eq/=.
    rewrite length_insert.
    eapply Forall_lookup_1 in Hcols; eauto.
Qed.

Lemma get_set_column j (col : list F) m i j' :
  wf_matrix m -> length col = nrows m -> (j < ncols m)%nat ->
  np.get (np.set_column j col m) i j' =
    if decide (j = j') then col !! i else np.get m i j'.
Proof.
  intros [Hrows Hcols] Hcol Hj. unfold np.get; simpl.
  rewrite lookup_zip_with.
  destruct (entries m !! i) as [row|] eqn:Hrow; simpl.
  - assert (length row = ncols m) as Hlen
      by (eapply Forall_lookup_1 in Hcols; eauto).
    apply lookup_lt_Some in Hrow.
    destruct (col !! i) as [x|] eqn:Hx; simpl.
    + destruct (decide (j = j')) as [<-|Hne].
      * apply list_lookup_insert_eq. lia.
      * by apply list_lookup_insert_ne.
    + apply lookup_ge_None in Hx. lia.
  - apply lookup_ge_None in Hrow.
    destruct (decide (j = j')); [|done].
    symmetry. apply lookup_ge_None. lia.
Qed.

Lemma column_set_column j (col : list F) m :
  wf_matrix m -> length col = nrows m -> (j < ncols m)%nat ->
  np.column j (np.set_column j col m) = col.
Proof.
  intros [Hrows Hcols] Hcol Hj. unfold np.column; simpl.
  rewrite <- Hrows in Hcol. clear Hrows.
  revert col Hcol. induction Hcols as [|row rows Hrow _ IH]; intros [|x col] ?;
    simplify_eq/=; [done|].
  rewrite list_lookup_insert_eq by lia. simpl. f_equal. by apply IH.
Qed.

Lemma linspace_length (start stop : F) num :
  length (np.linspace start stop num) = num.
Proof.
  unfold np.linspace.
  repeat case_bool_decide;
    rewrite ?length_insert, !length_fmap, length_seq; done.
Qed.

(** Below the endpoint, the [i]-th value of [linspace] is
    [i * step + start]. *)
Lemma linspace_lookup_lt (start stop : F) n i :
  (1 <= n)%nat -> (i < n)%nat ->
  np.linspace start stop (n + 1) !! i =
    Some (of_Z (Z.of_nat i) * ((stop - start) / of_Z (Z.of_nat n)) + start)%num.
Proof.
  intros Hn Hi. unfold np.linspace.
  replace (n + 1 - 1)%nat with n by lia.
  rewrite !bool_decide_eq_true_2 by lia.
  rewrite list_lookup_insert_ne by lia.
  rewrite !list_lookup_fmap, lookup_seq_lt by lia. done.
Qed.

(** The endpoint is [stop] itself. *)
Lemma linspace_lookup_last (start stop : F) n :
  (1 <= n)%nat -> np.linspace start stop (n + 1) !! n = Some stop.
Proof.
  intros Hn. unfold np.linspace.
  replace (n + 1 - 1)%nat with n by lia.
  rewrite !bool_decide_eq_true_2 by lia.
  apply list_lookup_insert_eq.
  rewrite !length_fmap, length_seq. lia.
Qed.

Lemma bounds_length n :
  length (lower_bounds (F := F) n) = n /\ length (upper_bounds (F := F) n) = n.
Proof.
  unfold lower_bounds, upper_bounds.
  rewrite !length_take, length_drop, linspace_length. lia.
Qed.

(** The bounds for [n] rows, entry by entry: [a[i]] is [i * step + 0],
    [b[i]] is the next value of the partition, and the last upper bound
    is the endpoint [1] itself. *)
Lemma lower_bounds_lookup n i :
  (i < n)%nat ->
  lower_bounds (F := F) n !! i = Some (of_Z (Z.of_nat i) * unit_step n + 0)%num.
Proof.
  intros Hi. unfold lower_bounds, unit_step.
  rewrite lookup_take_lt by done. apply linspace_lookup_lt; lia.
Qed.

Lemma upper_bounds_lookup n i :
  (i + 1 < n)%nat ->
  upper_bounds (F := F) n !! i = lower_bounds n !! (i + 1)%nat.
Proof.
  intros Hi. unfold lower_bounds, upper_bounds.
  rewrite !lookup_take_lt, lookup_drop by lia. f_equal. lia.
Qed.

Lemma upper_bounds_last n :
  (1 <= n)%nat -> upper_bounds (F := F) n !! (n - 1)%nat = Some 1%num.
Proof.
  intros Hn. unfold upper_bounds.
  rewrite lookup_take_lt, lookup_drop by lia.
  replace (1 + (n - 1))%nat with n by lia.
  by apply linspace_lookup_last.
Qed.

Lemma stratify_length (av bv col : list F) n :
  length av = n -> length bv = n -> length col = n ->
  length (stratify av bv col) = n.
Proof.
  intros. unfold stratify, np.add, np.mul, np.sub.
  rewrite !length_zip_with. lia.
Qed.

Lemma stratify_lookup (av bv col : list F) i ai bi u :
  av !! i = Some ai -> bv !! i = Some bi -> col !! i = Some u ->
  stratify av bv col !! i = Some (u * (bi - ai) + ai)%num.
Proof.
  intros Ha Hb Hu. unfold stratify, np.add, np.mul, np.sub.
  rewrite !lookup_zip_with, Ha, Hb, Hu. done.
Qed.

Lemma write_columns_wf j (cols : list (list F)) m :
  wf_matrix m -> Forall (fun col => length col = nrows m) cols ->
  wf_matrix (write_columns j cols m) /\
  nrows (write_columns j cols m) = nrows m /\
  ncols (write_columns j cols m) = ncols m.
Proof.
  intros Hm Hall. revert j m Hm Hall.
  induction cols as [|col cols IH]; intros j m Hm Hall; simpl; [done|].
  apply Forall_cons in Hall as [Hcol Hall].
  destruct (IH (S j) (np.set_column j col m)) as (? & ? & ?); [|done..].
  by apply set_column_wf.
Qed.

(** Reading the matrix the loop wrote: inside the written range an entry is
    the entry of its column, outside it is what was there. *)
Lemma get_write_columns (cols : list (list F)) : forall j0 m i j,
  wf_matrix m -> Forall (fun col => length col = nrows m) cols ->
  (j0 + length cols <= ncols m)%nat ->
  np.get (write_columns j0 cols m) i j =
    if bool_decide (j0 <= j < j0 + length cols)%nat
    then cols !! (j - j0)%nat ≫= (.!! i)
    else np.get m i j.
Proof.
  induction cols as [|col cols IH]; intros j0 m i j Hm Hall Hj; simpl.
  - rewrite bool_decide_eq_false_2 by lia. done.
  - apply Forall_cons in Hall as [Hcol Hall]. simpl in Hj.
    rewrite IH; [|by apply set_column_wf|done|simpl; lia].
    rewrite get_set_column by (done || lia).
    case_bool_decide as H1; case_bool_decide as H2; try lia.
    + destruct (j - j0)%nat as [|c] eqn:Hc; [lia|].
      simpl. do 2 f_equal. lia.
    + destruct (decide (j0 = j)) as [->|]; [|lia].
      by rewrite Nat.sub_diag.
    + destruct (decide (j0 = j)); [lia|done].
Qed.

Lemma concat_lookup_uniform (cols : list (list F)) n j i :
  Forall (fun col => length col = n) cols -> (i < n)%nat ->
  concat cols !! (j * n + i)%nat = cols !! j ≫= (.!! i).
Proof.
  intros Hall Hi. revert j.
  induction Hall as [|col cols Hcol _ IH]; intros j; simpl.
  - by rewrite !lookup_nil.
  - destruct j as [|j]; simpl.
    + apply lookup_app_l. lia.
    + rewrite lookup_app_r by lia.
      replace (n + j * n + i - length col)%nat with (j * n + i)%nat by lia.
      apply IH.
Qed.

End arrays.

(** ** Criterion: the stratum bounds *)

Section criterion_bounds.
Context {F : Type} `{RandomSource F}.

(** The loop writes [samples] only: the bounds and the random source of the
    sampler are as before, whatever the outcome. *)
Lemma fill_columns_keeps cols n u w self :
  Criterion.a (Criterion.fill_columns cols n u w self).1.2 = Criterion.a self /\
  Criterion.b (Criterion.fill_columns cols n u w self).1.2 = Criterion.b self /\
  Criterion.random_state (Criterion.fill_columns cols n u w self).1.2
    = Criterion.random_state self.
Proof.
  revert u w self. induction cols as [|i cols IH]; intros u w self; simpl; [done|].
  destruct (stats.uniform_rvs n (Criterion.random_state self) w) as [[col w']|e];
    simpl; [|done].
  by destruct (IH (np.set_column i col u) w'
    {| Criterion.a := Criterion.a self; Criterion.b := Criterion.b self;
       Criterion.samples :=
         np.set_column i
           (np.add
              (np.mul (np.column i (np.set_column i col u))
                 (np.sub (Criterion.broadcast n (Criterion.b self))
                    (Criterion.broadcast n (Criterion.a self))))
              (Criterion.broadcast n (Criterion.a self)))
           (Criterion.samples self);
       Criterion.random_state := Criterion.random_state self |})
    as (-> & -> & ->).
Qed.

(** What [create_bins] leaves in [a] and [b] for an input with [n] rows and
    [d] columns, whatever the outcome of the draws. *)
Lemma create_bins_cut w self m n d :
  shape m = [n; d] ->
  Criterion.a (Criterion.create_bins w self m).1.2
    = Criterion.Array (lower_bounds n) /\
  Criterion.b (Criterion.create_bins w self m).1.2
    = Criterion.Array (upper_bounds n).
Proof.
  intros Hshape. unfold Criterion.create_bins, Criterion.shape_at.
  rewrite Hshape; simpl.
  match goal with |- context [Criterion.fill_columns ?c ?k ?u ?w0 ?s] =>
    destruct (fill_columns_keeps c k u w0 s) as (-> & -> & _) end.
  done.
Qed.

(** C1, as the code computes it.  For every [n >= 1], after [create_bins]
    on a matrix with [n] rows the retained arrays [a] and [b] have [n]
    entries; [a[i]] is the product [i * step] plus [0] for the step
    [(1 - 0) / n], in the arithmetic of the code; [b[n-1]] is [1] itself;
    and [b[i]] is [a[i+1]], the same value, for [i < n-1].  Whether
    [a[i]] is [i/n] and [b[i] - a[i]] is [1/n] is a matter of the
    arithmetic: in binary64 they are not
    ([create_bins_bounds_rounded]). *)
Theorem create_bins_bounds w self m n d :
  (1 <= n)%nat ->
  shape m = [n; d] ->
  exists av bv,
    Criterion.a (Criterion.create_bins w self m).1.2 = Criterion.Array av /\
    Criterion.b (Criterion.create_bins w self m).1.2 = Criterion.Array bv /\
    length av = n /\ length bv = n /\
    (forall i, (i < n)%nat ->
       av !! i = Some (of_Z (Z.of_nat i) * unit_step n + 0)%num) /\
    bv !! (n - 1)%nat = Some 1%num /\
    (forall i, (i + 1 < n)%nat -> bv !! i = av !! (i + 1)%nat).
Proof.
  intros Hn Hshape.
  destruct (create_bins_cut w self m n d Hshape) as [Ha Hb].
  destruct (bounds_length (F := F) n) as [Hla Hlb].
  exists (lower_bounds n), (upper_bounds n).
  repeat split; try done.
  - intros i Hi. by apply lower_bounds_lookup.
  - by apply upper_bounds_last.
  - intros i Hi. by apply upper_bounds_lookup.
Qed.

End criterion_bounds.

(** ** Criterion: the draws *)

Section criterion_draws.
Context {F : Type} `{RandomSource F}.

Lemma random_samples_length n g : length (stats.random_samples n g).1 = n.
Proof.
  revert g. induction n as [|n IH]; intros g; simpl; [done|].
  destruct (random_sample g) as [x g1].
  specialize (IH g1). destruct (stats.random_samples n g1) as [xs g2].
  simpl in *. by rewrite IH.
Qed.

Lemma random_samples_unit n g x :
  x ∈ (stats.random_samples n g).1 ->
  fleb 0%num x = true /\ fltb x 1%num = true.
Proof.
  revert g. induction n as [|n IH]; intros g; simpl.
  - by intros ?%elem_of_nil.
  - pose proof (random_sample_unit g) as Hx.
    destruct (random_sample g) as [x0 g1].
    specialize (IH g1). destruct (stats.random_samples n g1) as [xs g2].
    simpl in *. intros [->|Hin]%elem_of_cons; auto.
Qed.

Lemma random_samples_app n k g :
  stats.random_samples (n + k) g =
    ((stats.random_samples n g).1
       ++ (stats.random_samples k (stats.random_samples n g).2).1,
     (stats.random_samples k (stats.random_samples n g).2).2).
Proof.
  revert g. induction n as [|n IH]; intros g; simpl.
  - by destruct (stats.random_samples k g).
  - destruct (random_sample g) as [x g1]. rewrite IH.
    by destruct (stats.random_samples n g1) as [xs g2].
Qed.

Lemma draw_columns_length k n g : length (draw_columns k n g).1 = k.
Proof.
  revert g. induction k as [|k IH]; intros g; simpl; [done|].
  destruct (stats.random_samples n g) as [col g1].
  specialize (IH g1). destruct (draw_columns k n g1) as [cols g2].
  simpl in *. by rewrite IH.
Qed.

Lemma draw_columns_each k n g :
  Forall (fun col => length col = n) (draw_columns k n g).1.
Proof.
  revert g. induction k as [|k IH]; intros g; simpl; [done|].
  pose proof (random_samples_length n g) as Hlen.
  destruct (stats.random_samples n g) as [col g1].
  specialize (IH g1). destruct (draw_columns k n g1) as [cols g2].
  simpl in *. by constructor.
Qed.

(** The batches are consecutive stretches of one stream of [k * n] draws. *)
Lemma draw_columns_stream k n g :
  concat (draw_columns k n g).1 = (stats.random_samples (k * n) g).1 /\
  (draw_columns k n g).2 = (stats.random_samples (k * n) g).2.
Proof.
  revert g. induction k as [|k IH]; intros g; simpl; [done|].
  rewrite random_samples_app.
  destruct (stats.random_samples n g) as [col g1]. simpl.
  destruct (IH g1) as [IH1 IH2].
  destruct (draw_columns k n g1) as [cols g2]. simpl in *.
  by rewrite IH1, IH2.
Qed.

End criterion_draws.

(** ** Criterion: the generator in the store *)

Section criterion_store.
Context {F : Type} `{RandomSource F}.

Lemma usable_check w rs :
  Criterion.usable w rs = true -> exists g, stats.check_random_state w rs = Ok g.
Proof.
  destruct rs; simpl; try done; [by eexists|].
  intros [g Hg]%bool_decide_eq_true. rewrite Hg. by eexists.
Qed.

Lemma check_advance w rs g :
  Criterion.usable w rs = true ->
  stats.check_random_state (stats.advance w rs g) rs = Ok g.
Proof.
  destruct rs; simpl; try done. intros _. by rewrite lookup_insert_eq.
Qed.

Lemma usable_advance w rs g :
  Criterion.usable w rs = true ->
  Criterion.usable (stats.advance w rs g) rs = true.
Proof.
  destruct rs; simpl; try done. intros _.
  apply bool_decide_eq_true. rewrite lookup_insert_eq. by eexists.
Qed.

Lemma advance_advance w rs g1 g2 :
  stats.advance (stats.advance w rs g1) rs g2 = stats.advance w rs g2.
Proof. destruct rs; simpl; try done. by rewrite insert_insert_eq. Qed.

Lemma advance_same w rs g :
  Criterion.usable w rs = true ->
  stats.check_random_state w rs = Ok g -> stats.advance w rs g = w.
Proof.
  destruct w as [g0 objs], rs; simpl; try done.
  - intros _ [= ->]. done.
  - intros _. destruct (objs !! l) as [g'|] eqn:Hl; [|done].
    intros [= ->]. by rewrite insert_id.
Qed.

Lemma uniform_rvs_usable n w rs g :
  stats.check_random_state w rs = Ok g ->
  stats.uniform_rvs n rs w =
    Ok ((stats.random_samples n g).1,
        stats.advance w rs (stats.random_samples n g).2).
Proof.
  intros Hg. unfold stats.uniform_rvs. rewrite Hg. simpl.
  by destruct (stats.random_samples n g).
Qed.

(** The loop of [create_bins] with a usable random source: column [j0 + c]
    receives the stratified [c]-th batch of draws, and the generator is left
    after the last batch. *)
Lemma fill_columns_run k : forall j0 n u w self g,
  Criterion.usable w (Criterion.random_state self) = true ->
  stats.check_random_state w (Criterion.random_state self) = Ok g ->
  wf_matrix u -> wf_matrix (Criterion.samples self) ->
  nrows u = n -> nrows (Criterion.samples self) = n ->
  (j0 + k <= ncols u)%nat -> (j0 + k <= ncols (Criterion.samples self))%nat ->
  length (Criterion.broadcast n (Criterion.a self)) = n ->
  length (Criterion.broadcast n (Criterion.b self)) = n ->
  Criterion.fill_columns (seq j0 k) n u w self =
    (stats.advance w (Criterion.random_state self) (draw_columns k n g).2,
     {| Criterion.a := Criterion.a self; Criterion.b := Criterion.b self;
        Criterion.samples :=
          write_columns j0
            (stratify (Criterion.broadcast n (Criterion.a self))
                      (Criterion.broadcast n (Criterion.b self))
               <$> (draw_columns k n g).1)
            (Criterion.samples self);
        Criterion.random_state := Criterion.random_state self |},
     Ok ()).
Proof.
  induction k as [|k IH];
    intros j0 n u w self g Hus Hg Hu Hs Hnu Hns Hju Hjs Ha Hb; simpl.
  - rewrite advance_same by done. by destruct self.
  - rewrite (uniform_rvs_usable _ _ _ _ Hg).
    pose proof (random_samples_length n g) as Hlen.
    destruct (stats.random_samples n g) as [col g1]. simpl in *.
    rewrite column_set_column by (done || lia).
    rewrite (IH (S j0) n _ _ _ g1); simpl.
    + rewrite advance_advance.
      by destruct (draw_columns k n g1) as [cols g2].
    + by apply usable_advance.
    + by apply check_advance.
    + apply set_column_wf; [done|lia].
    + apply set_column_wf; [done|].
      rewrite Hns. by apply stratify_length.
    + done.
    + done.
    + lia.
    + lia.
    + done.
    + done.
Qed.

End criterion_store.

(** ** Criterion: [create_bins] *)

Section create_bins_facts.
Context {F : Type} `{RandomSource F}.

(** [create_bins] on an [n] by [d] input with a usable random source, in
    closed form. *)
Lemma create_bins_run w self m n d g :
  shape m = [n; d] ->
  Criterion.usable w (Criterion.random_state self) = true ->
  stats.check_random_state w (Criterion.random_state self) = Ok g ->
  Criterion.create_bins w self m =
    (stats.advance w (Criterion.random_state self) (draw_columns d n g).2,
     {| Criterion.a := Criterion.Array (lower_bounds n);
        Criterion.b := Criterion.Array (upper_bounds n);
        Criterion.samples :=
          write_columns 0
            (stratify (lower_bounds n) (upper_bounds n) <$> (draw_columns d n g).1)
            (np.zeros n d);
        Criterion.random_state := Criterion.random_state self |},
     Ok ()).
Proof.
  intros Hshape Hus Hg.
  unfold Criterion.create_bins, Criterion.shape_at. rewrite Hshape. simpl.
  destruct (bounds_length (F := F) n) as [Ha Hb].
  by rewrite (fill_columns_run d 0 n _ w _ g); try (done || apply zeros_wf).
Qed.

End create_bins_facts.

Section stratified_facts.
Context {F : Type} `{RandomSource F}.


End stratified_facts.

Section criterion_contract.
Context {F : Type} `{RandomSource F}.

(** A constructed sampler has a usable random source, provided a
    generator passed in exists. *)
Lemma init_usable w random_state w' self :
  (forall l, random_state = PyRandomState l -> is_Some (objects w !! l)) ->
  Criterion.__init__ w random_state = Ok (w', self) ->
  Criterion.usable w' (Criterion.random_state self) = true.
Proof.
  intros Hl. unfold Criterion.__init__, stats.seeded.
  destruct random_state as [|seed| | |l]; simpl; try done.
  - intros Hinit. by simplify_eq.
  - case_bool_decide; simpl; [|done]. intros Hinit. simplify_eq. simpl.
    apply bool_decide_eq_true. rewrite lookup_insert_eq. by eexists.
  - intros Hinit. simplify_eq. simpl.
    apply bool_decide_eq_true. by apply Hl.
Qed.

(** Construction with an integer seed that numpy accepts, in closed
    form. *)
Lemma init_seed w seed :
  (0 <= seed <= 2 ^ 32 - 1)%Z ->
  Criterion.__init__ w (PyInt seed) =
    Ok ({| mtrand_rand := mtrand_rand w;
           objects := <[fresh (dom (objects w)) := RandomState seed]> (objects w) |},
        {| Criterion.a := Criterion.Scalar 0; Criterion.b := Criterion.Scalar 0;
           Criterion.samples := np.zeros 0 0;
           Criterion.random_state := PyRandomState (fresh (dom (objects w))) |}).
Proof.
  intros Hseed. unfold Criterion.__init__, stats.seeded. simpl.
  by rewrite bool_decide_eq_true_2.
Qed.

Lemma init_seed_inv w seed w' self :
  Criterion.__init__ w (PyInt seed) = Ok (w', self) ->
  (0 <= seed <= 2 ^ 32 - 1)%Z.
Proof.
  unfold Criterion.__init__, stats.seeded. simpl.
  by case_bool_decide.
Qed.

(** Whatever it is given, a construction that succeeds leaves the integer
    [0] in [a] and [b] and an empty array in [samples]. *)
Lemma init_attributes w random_state w' self :
  Criterion.__init__ w random_state = Ok (w', self) ->
  Criterion.a self = Criterion.Scalar 0 /\
  Criterion.b self = Criterion.Scalar 0 /\
  Criterion.samples self = np.zeros 0 0.
Proof.
  unfold Criterion.__init__, stats.seeded.
  destruct random_state as [|seed| | |l]; simpl; try done;
    try case_bool_decide; simpl; try done; intros Hinit; by simplify_eq.
Qed.

(** C3, as the code has it.  [create_bins] raises nothing on a 2-D input of
    any shape, the shapes with no row or no column included: no shape is
    rejected. *)
Theorem create_bins_never_raises w self m n d :
  shape m = [n; d] ->
  Criterion.usable w (Criterion.random_state self) = true ->
  (Criterion.create_bins w self m).2 = Ok ().
Proof.
  intros Hshape Hus.
  destruct (usable_check _ _ Hus) as [g Hg].
  by rewrite (create_bins_run w self m n d g).
Qed.

(** With no row the bounds and the matrix are empty; with no column the
    generator is not touched. *)
Lemma create_bins_no_rows w self m d g :
  shape m = [0%nat; d] ->
  Criterion.usable w (Criterion.random_state self) = true ->
  stats.check_random_state w (Criterion.random_state self) = Ok g ->
  Criterion.create_bins w self m =
    (w, {| Criterion.a := Criterion.Array []; Criterion.b := Criterion.Array [];
           Criterion.samples := np.zeros 0 d;
           Criterion.random_state := Criterion.random_state self |}, Ok ()).
Proof.
  intros Hshape Hus Hg.
  rewrite (create_bins_run w self m 0 d g) by done.
  assert (forall k j (g0 : gen),
    (draw_columns k 0 g0).2 = g0 /\
    write_columns j (stratify (lower_bounds 0) (upper_bounds 0)
                       <$> (draw_columns k 0 g0).1) (np.zeros 0 d)
      = np.zeros 0 d) as Hempty.
  { clear. induction k as [|k IH]; intros j g0; simpl; [done|].
    destruct (IH (S j) g0) as [IH1 IH2].
    destruct (draw_columns k 0 g0) as [cs g2]. simpl in *.
    split; [done|]. exact IH2. }
  destruct (Hempty d 0%nat g) as [-> ->].
  by rewrite advance_same.
Qed.

(** The body of the abstract method is [pass]: called on the base class,
    in any state, it returns [None] and changes nothing. *)
Lemma generate_samples_pass w self :
  Criterion.generate_samples w self = (w, self, Ok PyNone).
Proof. reflexivity. Qed.

(** Such a sampler still holds what construction left in it. *)
Lemma unbinned_attributes self :
  unbinned self ->
  Criterion.a self = Criterion.Scalar 0 /\
  Criterion.b self = Criterion.Scalar 0 /\
  Criterion.samples self = np.zeros 0 0.
Proof.
  induction 1 as [w rs w' self Hinit|w self _ IH|policy w self _ IH].
  - by eapply init_attributes.
  - exact IH.
  - destruct IH as (Ha & Hb & Hs).
    unfold Criterion.generate_samples_of. by rewrite Ha.
Qed.

(** C4.  On a sampler on which [create_bins] has never been called, the
    [generate_samples] of a variant fails with [StateError], whatever the
    variant's policy, and leaves the interpreter and the sampler as they
    were. *)
Theorem generate_samples_before_create_bins policy w self :
  unbinned self ->
  Criterion.generate_samples_of policy w self = (w, self, Raise StateError).
Proof.
  intros (Ha & _ & _)%unbinned_attributes.
  unfold Criterion.generate_samples_of. by rewrite Ha.
Qed.

(** After a call of [create_bins] on a 2-D input the bounds are
    established, and the same method returns the variant's arrangement of
    the stratified matrix: the failure above is that of the first state
    only. *)
Lemma generate_samples_after_create_bins policy w self m n d w' self' :
  shape m = [n; d] ->
  Criterion.create_bins w self m = (w', self', Ok ()) ->
  Criterion.generate_samples_of policy w' self' =
    (w', self',
     Ok (policy (lower_bounds n) (upper_bounds n) (Criterion.samples self'))).
Proof.
  intros Hshape Hrun.
  destruct (create_bins_cut w self m n d Hshape) as [Ha Hb].
  rewrite Hrun in Ha, Hb. simpl in Ha, Hb.
  unfold Criterion.generate_samples_of. by rewrite Ha, Hb.
Qed.

(** C7.  [create_bins] reads the shape of its argument and nothing else:
    on two inputs of the same shape [(n, d)], and samplers with the same
    random source in the same interpreter state, the resulting state, the
    bounds, the stratified matrix and the outcome are the same. *)
Theorem create_bins_shape_only w self1 self2 m1 m2 n d :
  shape m1 = [n; d] -> shape m2 = [n; d] ->
  Criterion.random_state self1 = Criterion.random_state self2 ->
  Criterion.create_bins w self1 m1 = Criterion.create_bins w self2 m2.
Proof.
  intros Hshape1 Hshape2 Hrs.
  unfold Criterion.create_bins, Criterion.shape_at.
  rewrite Hshape1, Hshape2. simpl. rewrite Hrs. reflexivity.
Qed.

(** C8, as the code has it.  Construction accepts an integer seed from
    [0] to [2^32 - 1], which it wraps into a new generator seeded with
    it, a generator instance, which it keeps as it is, or nothing; an
    integer outside that range fails with numpy's [ValueError], and a
    value of another type with [ConfigurationError]. *)
Theorem init_random_state w :
  (forall seed, (0 <= seed <= 2 ^ 32 - 1)%Z -> exists l,
      objects w !! l = None /\
      Criterion.__init__ w (PyInt seed) =
        Ok ({| mtrand_rand := mtrand_rand w;
               objects := <[l := RandomState seed]> (objects w) |},
            {| Criterion.a := Criterion.Scalar 0; Criterion.b := Criterion.Scalar 0;
               Criterion.samples := np.zeros 0 0;
               Criterion.random_state := PyRandomState l |})) /\
  (forall seed, ~ (0 <= seed <= 2 ^ 32 - 1)%Z ->
      Criterion.__init__ w (PyInt seed) = Raise ValueError) /\
  (forall l,
      Criterion.__init__ w (PyRandomState l) =
        Ok (w, {| Criterion.a := Criterion.Scalar 0; Criterion.b := Criterion.Scalar 0;
                  Criterion.samples := np.zeros 0 0;
                  Criterion.random_state := PyRandomState l |})) /\
  Criterion.__init__ w PyNone =
    Ok (w, {| Criterion.a := Criterion.Scalar 0; Criterion.b := Criterion.Scalar 0;
              Criterion.samples := np.zeros 0 0;
              Criterion.random_state := PyNone |}) /\
  (forall q, Criterion.__init__ w (PyFloat q) = Raise ConfigurationError) /\
  (forall s, Criterion.__init__ w (PyStr s) = Raise ConfigurationError).
Proof.
  repeat split; try done.
  - intros seed Hseed. exists (fresh (dom (objects w))). split.
    + apply not_elem_of_dom, is_fresh.
    + by apply init_seed.
  - intros seed Hseed. unfold Criterion.__init__, stats.seeded. simpl.
    by rewrite bool_decide_eq_false_2.
Qed.

End criterion_contract.

Section determinism.
Context {F : Type} `{RandomSource F}.

(** What [create_bins] computes from the generator [g] it draws from. *)
Lemma create_bins_of_generator w self m n d g :
  shape m = [n; d] ->
  Criterion.usable w (Criterion.random_state self) = true ->
  stats.check_random_state w (Criterion.random_state self) = Ok g ->
  (Criterion.create_bins w self m).2 = Ok () /\
  (Criterion.create_bins w self m).1.1
    = stats.advance w (Criterion.random_state self) (draw_columns d n g).2 /\
  Criterion.a (Criterion.create_bins w self m).1.2 = Criterion.Array (lower_bounds n) /\
  Criterion.b (Criterion.create_bins w self m).1.2 = Criterion.Array (upper_bounds n) /\
  Criterion.samples (Criterion.create_bins w self m).1.2 =
    write_columns 0
      (stratify (lower_bounds n) (upper_bounds n) <$> (draw_columns d n g).1)
      (np.zeros n d).
Proof. intros. by rewrite (create_bins_run w self m n d g). Qed.

(** C5.  Two samplers constructed with the same integer seed and given
    inputs of the same shape obtain the same bounds and the same stratified
    matrix from [create_bins]: in two runs (any two interpreter states,
    first part), and in one run where both are constructed first and then
    used one after the other (second part).  The seed is one the
    constructions accept: with any other there is no sampler. *)
Theorem same_seed_same_bins (seed : Z) (wA wB w : world) m1 m2 n d
    wA' sA wB' sB w1 s1 w2 s2 :
  shape m1 = [n; d] -> shape m2 = [n; d] ->
  Criterion.__init__ wA (PyInt seed) = Ok (wA', sA) ->
  Criterion.__init__ wB (PyInt seed) = Ok (wB', sB) ->
  Criterion.__init__ w (PyInt seed) = Ok (w1, s1) ->
  Criterion.__init__ w1 (PyInt seed) = Ok (w2, s2) ->
  ((Criterion.create_bins wA' sA m1).2 = Ok () /\
   (Criterion.create_bins wB' sB m2).2 = Ok () /\
   Criterion.a (Criterion.create_bins wA' sA m1).1.2
     = Criterion.a (Criterion.create_bins wB' sB m2).1.2 /\
   Criterion.b (Criterion.create_bins wA' sA m1).1.2
     = Criterion.b (Criterion.create_bins wB' sB m2).1.2 /\
   Criterion.samples (Criterion.create_bins wA' sA m1).1.2
     = Criterion.samples (Criterion.create_bins wB' sB m2).1.2) /\
  (exists w3 s1' w4 s2',
      Criterion.create_bins w2 s1 m1 = (w3, s1', Ok ()) /\
      Criterion.create_bins w3 s2 m2 = (w4, s2', Ok ()) /\
      Criterion.a s1' = Criterion.a s2' /\
      Criterion.b s1' = Criterion.b s2' /\
      Criterion.samples s1' = Criterion.samples s2').
Proof.
  intros Hshape1 Hshape2 HA HB H1 H2.
  pose proof (init_seed_inv _ _ _ _ HA) as Hseed.
  rewrite init_seed in HA, HB, H1, H2 by done. simplify_eq.
  split.
  - set (R := RandomState seed).
    edestruct (create_bins_of_generator) as (-> & _ & -> & -> & ->);
      [exact Hshape1| | |].
    { simpl. apply bool_decide_eq_true. rewrite lookup_insert_eq. by eexists. }
    { simpl. rewrite lookup_insert_eq. reflexivity. }
    edestruct (create_bins_of_generator) as (-> & _ & -> & -> & ->);
      [exact Hshape2| | |].
    { simpl. apply bool_decide_eq_true. rewrite lookup_insert_eq. by eexists. }
    { simpl. rewrite lookup_insert_eq. reflexivity. }
    done.
  - simpl.
    set (l1 := fresh (dom (objects w))).
    set (objs1 := <[l1 := RandomState seed]> (objects w)).
    set (l2 := fresh (dom objs1)).
    assert (l2 <> l1) as Hne.
    { intros Heq. apply (is_fresh (dom objs1)). fold l2. rewrite Heq.
      apply elem_of_dom. unfold objs1. rewrite lookup_insert_eq. by eexists. }
    set (w2 := {| mtrand_rand := mtrand_rand w;
                  objects := <[l2 := RandomState seed]> objs1 |}).
    set (s1 := {| Criterion.a := Criterion.Scalar 0; Criterion.b := Criterion.Scalar 0;
                  Criterion.samples := np.zeros 0 0;
                  Criterion.random_state := PyRandomState l1 |}).
    set (s2 := {| Criterion.a := Criterion.Scalar 0; Criterion.b := Criterion.Scalar 0;
                  Criterion.samples := np.zeros 0 0;
                  Criterion.random_state := PyRandomState l2 |}).
    assert (stats.check_random_state w2 (PyRandomState l1) = Ok (RandomState seed)) as Hg1.
    { simpl. unfold objs1. by rewrite lookup_insert_ne, lookup_insert_eq. }
    assert (Criterion.usable w2 (PyRandomState l1) = true) as Hus1.
    { simpl. apply bool_decide_eq_true. unfold objs1.
      rewrite lookup_insert_ne, lookup_insert_eq by done. by eexists. }
    pose proof (create_bins_run w2 s1 m1 n d _ Hshape1 Hus1 Hg1) as Hrun1.
    set (w3 := stats.advance w2 (Criterion.random_state s1)
                 (draw_columns d n (RandomState seed)).2) in Hrun1.
    assert (stats.check_random_state w3 (PyRandomState l2) = Ok (RandomState seed)) as Hg2.
    { simpl. by rewrite lookup_insert_ne, lookup_insert_eq. }
    assert (Criterion.usable w3 (PyRandomState l2) = true) as Hus2.
    { simpl. apply bool_decide_eq_true.
      rewrite lookup_insert_ne, lookup_insert_eq by done. by eexists. }
    pose proof (create_bins_run w3 s2 m2 n d _ Hshape2 Hus2 Hg2) as Hrun2.
    eexists w3, _, _, _.
    split; [exact Hrun1|]. split; [exact Hrun2|]. done.
Qed.

Lemma draw_columns_one n g :
  draw_columns 1 n g = ([(stats.random_samples n g).1], (stats.random_samples n g).2).
Proof. simpl. by destruct (stats.random_samples n g). Qed.

End determinism.

(** ** Criterion: the scenario of the specification *)

#[local] Set Warnings "-inexact-float".

(** C6.  With [n = 4], [d = 1] and the draws [0.1, 0.5, 0.2, 0.9],
    [create_bins] gives [a = [0, 0.25, 0.5, 0.75]],
    [b = [0.25, 0.5, 0.75, 1]] and the stratified values
    [0.025, 0.375, 0.55, 0.975]: in binary64, where each decimal stands
    for the double nearest to it and the values are the same doubles bit
    for bit, and over the rationals, where they are these numbers. *)
Theorem create_bins_scenario :
  (forall (source : RandomSource float) (w : world) self (m : ndarray float) g g',
     shape m = [4; 1]%nat ->
     Criterion.usable w (Criterion.random_state self) = true ->
     stats.check_random_state w (Criterion.random_state self) = Ok g ->
     stats.random_samples 4 g = ([0.1; 0.5; 0.2; 0.9]%float, g') ->
     exists w' self',
       Criterion.create_bins w self m = (w', self', Ok ()) /\
       Criterion.a self' = Criterion.Array [0; 0.25; 0.5; 0.75]%float /\
       Criterion.b self' = Criterion.Array [0.25; 0.5; 0.75; 1.0]%float /\
       Criterion.samples self' =
         {| nrows := 4; ncols := 1;
            entries := [[0.025]; [0.375]; [0.55]; [0.975]]%float |}) /\
  (forall (source : RandomSource Q) (w : world) self (m : ndarray Q) g g',
     shape m = [4; 1]%nat ->
     Criterion.usable w (Criterion.random_state self) = true ->
     stats.check_random_state w (Criterion.random_state self) = Ok g ->
     stats.random_samples 4 g = ([0.1; 0.5; 0.2; 0.9]%Q, g') ->
     exists w' self' av bv,
       Criterion.create_bins w self m = (w', self', Ok ()) /\
       Criterion.a self' = Criterion.Array av /\
       Criterion.b self' = Criterion.Array bv /\
       Forall2 Qeq av [0; 0.25; 0.5; 0.75]%Q /\
       Forall2 Qeq bv [0.25; 0.5; 0.75; 1.0]%Q /\
       nrows (Criterion.samples self') = 4%nat /\
       ncols (Criterion.samples self') = 1%nat /\
       Forall2 (Forall2 Qeq) (entries (Criterion.samples self'))
         [[0.025]; [0.375]; [0.55]; [0.975]]%Q).
Proof.
  split.
  - intros source w self m g g' Hshape Hus Hg Hdraws.
    rewrite (create_bins_run w self m 4 1 g) by done.
    rewrite draw_columns_one, Hdraws.
    eexists _, _. split; [reflexivity|]. simpl.
    repeat split; vm_compute; reflexivity.
  - intros source w self m g g' Hshape Hus Hg Hdraws.
    rewrite (create_bins_run w self m 4 1 g) by done.
    rewrite draw_columns_one, Hdraws.
    eexists _, _, _, _. split; [reflexivity|]. simpl.
    do 2 (split; [reflexivity|]).
    vm_compute. repeat split; repeat constructor; vm_compute; reflexivity.
Qed.

(** ** Criterion: concrete runs *)

Lemma create_bins_bounds_witness :
  exists av bv,
    Criterion.a (Criterion.create_bins Scripted64.fresh_world Scripted64.sampler
                   (Scripted64.input 4 2)).1.2 = Criterion.Array av /\
    Criterion.b (Criterion.create_bins Scripted64.fresh_world Scripted64.sampler
                   (Scripted64.input 4 2)).1.2 = Criterion.Array bv /\
    length av = 4%nat /\ length bv = 4%nat /\
    (forall i, (i < 4)%nat ->
       av !! i = Some (of_Z (Z.of_nat i) * unit_step 4 + 0)%num) /\
    bv !! (4 - 1)%nat = Some 1%num /\
    (forall i, (i + 1 < 4)%nat -> bv !! i = av !! (i + 1)%nat).
Proof.
  apply (create_bins_bounds Scripted64.fresh_world Scripted64.sampler
           (Scripted64.input 4 2) 4 2); [lia | reflexivity].
Defined.

(** Against C1 as stated, in binary64.  With ten rows [a[3]] is
    [0.30000000000000004], which is not [3/10]
    ([0.29999999999999999]); with three rows [b[2] - a[2]] is
    [0.33333333333333337], which is not [1/3]
    ([0.33333333333333331]). *)
Lemma create_bins_bounds_rounded :
  (exists av a3,
     Criterion.a (Criterion.create_bins Scripted64.fresh_world Scripted64.sampler
                    (Scripted64.input 10 1)).1.2 = Criterion.Array av /\
     av !! 3%nat = Some a3 /\
     a3 = 0x1.3333333333334p-2%float /\
     (3 / 10)%float = 0x1.3333333333333p-2%float /\
     (a3 =? 3 / 10)%float = false) /\
  (exists av bv a2 b2,
     Criterion.a (Criterion.create_bins Scripted64.fresh_world Scripted64.sampler
                    (Scripted64.input 3 1)).1.2 = Criterion.Array av /\
     Criterion.b (Criterion.create_bins Scripted64.fresh_world Scripted64.sampler
                    (Scripted64.input 3 1)).1.2 = Criterion.Array bv /\
     av !! 2%nat = Some a2 /\ bv !! 2%nat = Some b2 /\
     (b2 - a2)%float = 0x1.5555555555556p-2%float /\
     (1 / 3)%float = 0x1.5555555555555p-2%float /\
     (b2 - a2 =? 1 / 3)%float = false).
Proof.
  split.
  - exists (lower_bounds 10), 0x1.3333333333334p-2%float.
    repeat split; vm_compute; reflexivity.
  - exists (lower_bounds 3), (upper_bounds 3), 0x1.5555555555555p-1%float, 1%float.
    repeat split; vm_compute; reflexivity.
Qed.



Lemma create_bins_never_raises_witness :
  (Criterion.create_bins Scripted64.fresh_world Scripted64.sampler
     (Scripted64.input 3 2)).2 = Ok ().
Proof.
  apply (create_bins_never_raises Scripted64.fresh_world
           Scripted64.sampler (Scripted64.input 3 2) 3 2); reflexivity.
Defined.

(** Against C3 as stated: with no row, or with no column, [create_bins]
    returns normally; it does not raise [InvalidShapeError]. *)
Lemma create_bins_accepts_empty_shapes :
  (Criterion.create_bins Scripted64.fresh_world Scripted64.sampler
     (Scripted64.input 0 3)).2 = Ok () /\
  (Criterion.create_bins Scripted64.fresh_world Scripted64.sampler
     (Scripted64.input 3 0)).2 = Ok () /\
  (Criterion.create_bins Scripted64.fresh_world Scripted64.sampler
     (Scripted64.input 0 3)).2 <> Raise InvalidShapeError /\
  (Criterion.create_bins Scripted64.fresh_world Scripted64.sampler
     (Scripted64.input 3 0)).2 <> Raise InvalidShapeError.
Proof. repeat split; (reflexivity || discriminate). Qed.

(** A sampler just constructed, and [generate_samples] with the policy
    that returns the stratified matrix as it is. *)
Lemma generate_samples_before_create_bins_witness :
  unbinned Scripted64.sampler /\
  Criterion.generate_samples_of (fun _ _ samples => samples)
    Scripted64.fresh_world Scripted64.sampler
  = (Scripted64.fresh_world, Scripted64.sampler, Raise StateError).
Proof.
  assert (unbinned Scripted64.sampler) as Hnew.
  { apply (unbinned_init Scripted64.fresh_world PyNone Scripted64.fresh_world).
    reflexivity. }
  split; [exact Hnew|].
  apply (generate_samples_before_create_bins (fun _ _ samples => samples)
           Scripted64.fresh_world Scripted64.sampler Hnew).
Defined.

Lemma same_seed_same_bins_witness :
  exists wA' sA wB' sB w1 s1 w2 s2,
    Criterion.__init__ Scripted64.fresh_world (PyInt 42) = Ok (wA', sA) /\
    Criterion.__init__
      (Scripted64.scripted_world [0.5]%float) (PyInt 42) = Ok (wB', sB) /\
    Criterion.__init__ Scripted64.fresh_world (PyInt 42) = Ok (w1, s1) /\
    Criterion.__init__ w1 (PyInt 42) = Ok (w2, s2) /\
    ((Criterion.create_bins wA' sA (Scripted64.input 3 2)).2 = Ok () /\
     (Criterion.create_bins wB' sB (Scripted64.input 3 2)).2 = Ok () /\
     Criterion.a (Criterion.create_bins wA' sA (Scripted64.input 3 2)).1.2
       = Criterion.a (Criterion.create_bins wB' sB (Scripted64.input 3 2)).1.2 /\
     Criterion.b (Criterion.create_bins wA' sA (Scripted64.input 3 2)).1.2
       = Criterion.b (Criterion.create_bins wB' sB (Scripted64.input 3 2)).1.2 /\
     Criterion.samples (Criterion.create_bins wA' sA (Scripted64.input 3 2)).1.2
       = Criterion.samples (Criterion.create_bins wB' sB (Scripted64.input 3 2)).1.2) /\
    (exists w3 s1' w4 s2',
        Criterion.create_bins w2 s1 (Scripted64.input 3 2) = (w3, s1', Ok ()) /\
        Criterion.create_bins w3 s2 (Scripted64.input 3 2) = (w4, s2', Ok ()) /\
        Criterion.a s1' = Criterion.a s2' /\
        Criterion.b s1' = Criterion.b s2' /\
        Criterion.samples s1' = Criterion.samples s2').
Proof.
  eexists _, _, _, _, _, _, _, _.
  do 4 (split; [reflexivity|]).
  eapply (same_seed_same_bins 42 Scripted64.fresh_world
            (Scripted64.scripted_world [0.5]%float) Scripted64.fresh_world
            (Scripted64.input 3 2) (Scripted64.input 3 2) 3 2); reflexivity.
Defined.

Lemma create_bins_scenario_witness :
  (exists w' self',
     Criterion.create_bins (Scripted64.scripted_world [0.1; 0.5; 0.2; 0.9]%float)
       Scripted64.sampler (Scripted64.input 4 1) = (w', self', Ok ()) /\
     Criterion.a self' = Criterion.Array [0; 0.25; 0.5; 0.75]%float /\
     Criterion.b self' = Criterion.Array [0.25; 0.5; 0.75; 1.0]%float /\
     Criterion.samples self' =
       {| nrows := 4; ncols := 1;
          entries := [[0.025]; [0.375]; [0.55]; [0.975]]%float |}) /\
  (exists w' self' av bv,
     Criterion.create_bins (Scripted.scripted_world [0.1; 0.5; 0.2; 0.9]%Q)
       Scripted.sampler (Scripted.input 4 1) = (w', self', Ok ()) /\
     Criterion.a self' = Criterion.Array av /\
     Criterion.b self' = Criterion.Array bv /\
     Forall2 Qeq av [0; 0.25; 0.5; 0.75]%Q /\
     Forall2 Qeq bv [0.25; 0.5; 0.75; 1.0]%Q /\
     nrows (Criterion.samples self') = 4%nat /\
     ncols (Criterion.samples self') = 1%nat /\
     Forall2 (Forall2 Qeq) (entries (Criterion.samples self'))
       [[0.025]; [0.375]; [0.55]; [0.975]]%Q).
Proof.
  split.
  - apply (proj1 create_bins_scenario Scripted64.source
             (Scripted64.scripted_world [0.1; 0.5; 0.2; 0.9]%float)
             Scripted64.sampler (Scripted64.input 4 1)
             ([0.1; 0.5; 0.2; 0.9]%float, 0%Z) ([], 0%Z));
      reflexivity.
  - apply (proj2 create_bins_scenario Scripted.source
             (Scripted.scripted_world [0.1; 0.5; 0.2; 0.9]%Q) Scripted.sampler
             (Scripted.input 4 1) ([0.1; 0.5; 0.2; 0.9]%Q, 0%Z) ([], 0%Z));
      reflexivity.
Defined.

Lemma create_bins_shape_only_witness :
  Criterion.create_bins Scripted64.fresh_world Scripted64.sampler (Scripted64.input 3 2)
  = Criterion.create_bins Scripted64.fresh_world Scripted64.sampler
      {| shape := [3; 2]%nat; data := [0.1; 0.9; 0.3; 0.7; 0.2; 0.8]%float |}.
Proof.
  apply (create_bins_shape_only Scripted64.fresh_world
           Scripted64.sampler Scripted64.sampler (Scripted64.input 3 2)
           {| shape := [3; 2]%nat; data := [0.1; 0.9; 0.3; 0.7; 0.2; 0.8]%float |} 3 2);
    reflexivity.
Defined.

(** Against C8 as stated: an integer is not always accepted.  The seeds
    [-1] and [2^32] fail with [ValueError]; [0] and [2^32 - 1] are
    wrapped. *)
Lemma init_rejects_seeds :
  Criterion.__init__ Scripted64.fresh_world (PyInt (-1)) = Raise ValueError /\
  Criterion.__init__ Scripted64.fresh_world (PyInt (2 ^ 32)) = Raise ValueError /\
  (exists w self, Criterion.__init__ Scripted64.fresh_world (PyInt 0) = Ok (w, self)) /\
  (exists w self,
     Criterion.__init__ Scripted64.fresh_world (PyInt (2 ^ 32 - 1)) = Ok (w, self)).
Proof. repeat split; try reflexivity; eexists _, _; reflexivity. Qed.
(** ** Distribution *)

(** The getter of [parameters] never returns: every read of
    [self.parameters] ends in [RecursionError], whatever the recursion
    limit. *)
Lemma parameters_recursion frames self :
  Distribution.parameters frames self = Raise RecursionError.
Proof. induction frames as [|frames IH]; simpl; done. Qed.

Lemma ordered_parameters_recursion frames self :
  Distribution.ordered_parameters frames self = Raise RecursionError.
Proof. induction frames as [|frames IH]; simpl; done. Qed.

(** X1.  The constructor of [Distribution] raises [RecursionError] for
    every argument, at its first read of [self.ordered_parameters]. *)
Lemma distribution_init_recursion frames ordered kwargs :
  (Distribution.__init__ frames ordered kwargs).2 = Raise RecursionError.
Proof.
  unfold Distribution.__init__. by rewrite ordered_parameters_recursion.
Qed.

(** With no keyword the loop does not run and nothing is read. *)
Lemma update_parameters_nothing frames self :
  Distribution.update_parameters frames self [] = (self, Ok ()).
Proof. reflexivity. Qed.

(** C9, on the code.  [update_parameters] with at least one keyword raises
    [RecursionError] at its first read of [self.parameters] and writes
    nothing, whether the keyword names a parameter or not: it raises no
    [ValueError] and updates no parameter. *)
Theorem update_parameters_recursion frames self key value kwargs :
  Distribution.update_parameters frames self ((key, value) :: kwargs)
    = (self, Raise RecursionError).
Proof.
  unfold Distribution.update_parameters. simpl.
  unfold Distribution.get_parameters_with.
  by rewrite parameters_recursion.
Qed.

(** The loop of [update_parameters] on its own, with the attribute read as
    the setters store it ([Distribution.stored]): the keywords are checked
    and written one by one, in order. *)
Lemma dom_insert_known (key : string) (value : pyobj) (d : gmap string pyobj) :
  key ∈ dom d -> dom (<[key := value]> d) = dom d.
Proof. intros Hkey. apply dom_insert_lookup_L. by apply elem_of_dom. Qed.

Lemma write_all_dom kwargs d :
  Forall (fun kv => kv.1 ∈ dom d) kwargs -> dom (write_all kwargs d) = dom d.
Proof.
  revert d. induction kwargs as [|[key value] kwargs IH]; intros d Hall; simpl; [done|].
  apply Forall_cons in Hall as [Hkey Hall]. simpl in Hkey.
  rewrite IH; rewrite dom_insert_known by done; done.
Qed.

(** All keywords known: all are written, and nothing is raised. *)
Lemma update_loop_known kwargs self :
  Forall (fun kv => kv.1 ∈ dom (Distribution._parameters self)) kwargs ->
  Distribution.update_parameters_with Distribution.stored kwargs self =
    (Distribution.set_parameters self (write_all kwargs (Distribution._parameters self)),
     Ok ()).
Proof.
  revert self. induction kwargs as [|[key value] kwargs IH]; intros self Hall; simpl.
  - by destruct self.
  - apply Forall_cons in Hall as [Hkey Hall]. simpl in Hkey.
    rewrite bool_decide_eq_true_2 by done.
    rewrite IH; simpl; [done|]. by rewrite dom_insert_known.
Qed.

(** An unknown keyword after known ones: [ValueError], and the known ones
    before it stay written. *)
Lemma update_loop_unknown known key value rest self :
  Forall (fun kv => kv.1 ∈ dom (Distribution._parameters self)) known ->
  key ∉ dom (Distribution._parameters self) ->
  Distribution.update_parameters_with Distribution.stored
      (known ++ (key, value) :: rest) self =
    (Distribution.set_parameters self (write_all known (Distribution._parameters self)),
     Raise ValueError).
Proof.
  revert self. induction known as [|[k v] known IH]; intros self Hall Hkey; simpl.
  - rewrite bool_decide_eq_false_2 by done. by destruct self.
  - apply Forall_cons in Hall as [Hk Hall]. simpl in Hk.
    rewrite bool_decide_eq_true_2 by done.
    rewrite IH; simpl; rewrite ?dom_insert_known by done; done.
Qed.

Lemma update_loc_recursion :
  Distribution.update_parameters 1000 normal_parameters [("loc", PyFloat 2)]
    = (normal_parameters, Raise RecursionError).
Proof. vm_compute. reflexivity. Qed.

Lemma update_loc_intended :
  (Distribution.update_parameters_with Distribution.stored
     [("loc", PyFloat 2)] normal_parameters).2 = Ok () /\
  Distribution._parameters
    (Distribution.update_parameters_with Distribution.stored
       [("loc", PyFloat 2)] normal_parameters).1 !! "loc" = Some (PyFloat 2).
Proof. split; vm_compute; reflexivity. Qed.


(** ** ExpectedImprovement *)

Section order_facts.
Context {F : Type} `{ArithOrder F}.

Lemma not_nan (x : F) : is_nan x = false <-> fleb x x = true.
Proof. unfold is_nan. by destruct (fleb x x). Qed.

(** Away from [nan], the order of the sort is [<=]. *)
Lemma sort_le_fleb (x y : F) :
  is_nan y = false -> sort_le x y = true -> fleb x y = true.
Proof. unfold sort_le. by intros ->. Qed.

Lemma fold_max_spec (l : list F) : forall x,
  fleb x x = true -> Forall (fun y => fleb y y = true) l ->
  let r := fold_left (fun m y => if fltb m y then y else m) l x in
  r ∈ x :: l /\ fleb x r = true /\ forall y, y ∈ l -> fleb y r = true.
Proof.
  induction l as [|y l IH]; intros x Hx Hl; simpl.
  - split; [by left|]. split; [done|]. by intros y ?%elem_of_nil.
  - apply Forall_cons in Hl as [Hy Hl].
    destruct (fltb x y) eqn:Hlt.
    + destruct (IH y Hy Hl) as (Hin & Hge & Hall). split; [by right|].
      split; [eapply fleb_trans; [by apply fltb_fleb|done]|].
      intros z [->|Hz]%elem_of_cons; auto.
    + destruct (IH x Hx Hl) as (Hin & Hge & Hall).
      split; [apply elem_of_cons in Hin as [->|Hin]; [left|do 2 right]; done|].
      split; [done|].
      intros z [->|Hz]%elem_of_cons; auto.
      eapply fleb_trans; [|exact Hge]. by apply fltb_false.
Qed.

Lemma fold_min_spec (l : list F) : forall x,
  fleb x x = true -> Forall (fun y => fleb y y = true) l ->
  let r := fold_left (fun m y => if fltb y m then y else m) l x in
  r ∈ x :: l /\ fleb r x = true /\ forall y, y ∈ l -> fleb r y = true.
Proof.
  induction l as [|y l IH]; intros x Hx Hl; simpl.
  - split; [by left|]. split; [done|]. by intros y ?%elem_of_nil.
  - apply Forall_cons in Hl as [Hy Hl].
    destruct (fltb y x) eqn:Hlt.
    + destruct (IH y Hy Hl) as (Hin & Hge & Hall). split; [by right|].
      split; [eapply fleb_trans; [done|by apply fltb_fleb]|].
      intros z [->|Hz]%elem_of_cons; auto.
    + destruct (IH x Hx Hl) as (Hin & Hge & Hall).
      split; [apply elem_of_cons in Hin as [->|Hin]; [left|do 2 right]; done|].
      split; [done|].
      intros z [->|Hz]%elem_of_cons; auto.
      eapply fleb_trans; [exact Hge|]. by apply fltb_false.
Qed.

(** Python's [max] and [min] on a sequence without [nan]. *)
Lemma max_spec (l : list F) x :
  Forall (fun y => is_nan y = false) l ->
  ExpectedImprovement.max l = Ok x ->
  x ∈ l /\ forall y, y ∈ l -> fleb y x = true.
Proof.
  intros Hl. eapply Forall_impl in Hl; [|intros y; apply not_nan].
  destruct l as [|x0 l]; simpl; [done|]. intros [= <-].
  apply Forall_cons in Hl as [Hx0 Hl].
  destruct (fold_max_spec l x0 Hx0 Hl) as (Hin & Hge & Hall). split; [done|].
  intros y [->|Hy]%elem_of_cons; auto.
Qed.

Lemma min_spec (l : list F) x :
  Forall (fun y => is_nan y = false) l ->
  ExpectedImprovement.min l = Ok x ->
  x ∈ l /\ forall y, y ∈ l -> fleb x y = true.
Proof.
  intros Hl. eapply Forall_impl in Hl; [|intros y; apply not_nan].
  destruct l as [|x0 l]; simpl; [done|]. intros [= <-].
  apply Forall_cons in Hl as [Hx0 Hl].
  destruct (fold_min_spec l x0 Hx0 Hl) as (Hin & Hge & Hall). split; [done|].
  intros y [->|Hy]%elem_of_cons; auto.
Qed.

End order_facts.

Section selection_facts.
Context {F : Type} `{Arith F}.

Lemma max_nonempty (l : list F) :
  l <> [] -> exists x, ExpectedImprovement.max l = Ok x.
Proof. destruct l; [done|]. simpl. eauto. Qed.

Lemma min_nonempty (l : list F) :
  l <> [] -> exists x, ExpectedImprovement.min l = Ok x.
Proof. destruct l; [done|]. simpl. eauto. Qed.

Lemma min_nonempty_inv (l : list F) x :
  ExpectedImprovement.min l = Ok x -> l <> [].
Proof. by destruct l. Qed.

(** [l[m - k:]] for [0 <= k <= m = len(l)] is the last [k] items. *)
Lemma slice_from_last {A} (l : list A) (k : Z) :
  (0 <= k <= Z.of_nat (length l))%Z ->
  ExpectedImprovement.slice_from (Z.of_nat (length l) - k) l
    = drop (length l - Z.to_nat k) l.
Proof.
  intros Hk. unfold ExpectedImprovement.slice_from.
  destruct (Z.ltb_spec (Z.of_nat (length l) - k) 0) as [Hneg|Hpos]; [lia|].
  f_equal. lia.
Qed.

(** [l[start:]] takes items of [l] only, and leaves out [start] of them,
    counted as Python counts a start. *)
Lemma slice_from_subseteq {A} (start : Z) (l : list A) :
  ExpectedImprovement.slice_from start l ⊆ l.
Proof. unfold ExpectedImprovement.slice_from. apply subseteq_drop. Qed.

Lemma slice_from_length {A} (start : Z) (l : list A) :
  Z.of_nat (length (ExpectedImprovement.slice_from start l)) =
    (Z.of_nat (length l)
     - (if (start <? 0)%Z then Z.max (start + Z.of_nat (length l)) 0
        else Z.min start (Z.of_nat (length l))))%Z.
Proof.
  unfold ExpectedImprovement.slice_from. rewrite length_drop.
  destruct (Z.ltb_spec start 0); lia.
Qed.

(** Picking rows that exist. *)
Lemma take_rows_ok rows (x : matrix F) :
  Forall (fun r => (r < length (entries x))%nat) rows ->
  exists picked,
    ExpectedImprovement.take_rows rows x =
      Ok {| nrows := length rows; ncols := ncols x; entries := picked |} /\
    Forall2 (fun r row => entries x !! r = Some row) rows picked.
Proof.
  intros Hrows. unfold ExpectedImprovement.take_rows.
  destruct (mapM (entries x !!.) rows) as [picked|] eqn:Hpick.
  - exists picked. split; [done|]. by apply mapM_Some.
  - apply mapM_None in Hpick. apply Exists_exists in Hpick as (r & Hin & Hnone).
    rewrite Forall_forall in Hrows. apply Hrows in Hin.
    apply lookup_ge_None in Hnone. lia.
Qed.

End selection_facts.

Section selection.
Context {F : Type} `{ArgSort F}.

Lemma argsort_length (l : list F) : length (argsort l) = length l.
Proof. by rewrite (Permutation_length (argsort_perm l)), length_seq. Qed.

Lemma argsort_NoDup (l : list F) : NoDup (argsort l).
Proof. rewrite (argsort_perm l). apply NoDup_seq. Qed.

Lemma argsort_elem_of (l : list F) r : r ∈ argsort l <-> (r < length l)%nat.
Proof. rewrite (argsort_perm l), elem_of_seq. lia. Qed.

(** The last [k] indices of [argsort]: [k] distinct positions of the array,
    in the order of the sort, and no value outside them comes after a
    value among them in that order. *)
Lemma argsort_last (l : list F) (k : nat) :
  (k <= length l)%nat ->
  let rows := drop (length l - k) (argsort l) in
  length rows = k /\ NoDup rows /\
  Forall (fun r => (r < length l)%nat) rows /\
  (forall i j x y, (i <= j)%nat ->
     (rows !! i ≫= (l !!.)) = Some x -> (rows !! j ≫= (l !!.)) = Some y ->
     sort_le x y = true) /\
  (forall c r x y, c ∉ rows -> r ∈ rows ->
     l !! c = Some x -> l !! r = Some y -> sort_le x y = true).
Proof.
  intros Hk rows. subst rows.
  pose proof (argsort_length l) as Hlen.
  pose proof (argsort_NoDup l) as Hnodup.
  rewrite <- (take_drop (length l - k) (argsort l)) in Hnodup.
  apply NoDup_app in Hnodup as (_ & Hdisjoint & Hnodup).
  split; [rewrite length_drop; lia|]. split; [done|]. split; [|split].
  - apply Forall_forall. intros r Hin. apply argsort_elem_of.
    by eapply subseteq_drop.
  - intros i j x y Hij Hx Hy. rewrite lookup_drop in Hx, Hy.
    eapply (argsort_sorted l (length l - k + i) (length l - k + j)); [lia|done..].
  - intros c r x y Hc Hr Hx Hy.
    assert (c ∈ argsort l) as Hin
      by (apply argsort_elem_of; by eapply lookup_lt_Some).
    rewrite <- (take_drop (length l - k) (argsort l)) in Hin.
    apply elem_of_app in Hin as [Hin|Hin]; [|done].
    apply list_elem_of_lookup in Hin as [p Hp].
    apply list_elem_of_lookup in Hr as [q Hq].
    pose proof (lookup_lt_Some _ _ _ Hp) as Hplt.
    rewrite length_take in Hplt.
    rewrite lookup_take_lt in Hp by lia. rewrite lookup_drop in Hq.
    eapply (argsort_sorted l p (length l - k + q)); [lia| |].
    + by rewrite Hp.
    + by rewrite Hq.
Qed.

End selection.

Section evaluate_function_run.
Context {F : Type} `{ArgSort F}.
Variables norm_cdf norm_pdf : F -> F.

(** A run with a surrogate that fits the population and some evaluation in
    [qoi]: what is returned, for any [n_add] and any scores. *)
Lemma evaluate_function_any (self : ExpectedImprovement.t F) g sig :
  wf_matrix (ExpectedImprovement.pop self) ->
  (1 <= nrows (ExpectedImprovement.pop self))%nat ->
  ExpectedImprovement.surrogate self (ExpectedImprovement.pop self) true = (g, sig) ->
  length g = nrows (ExpectedImprovement.pop self) ->
  length sig = nrows (ExpectedImprovement.pop self) ->
  ExpectedImprovement.qoi self <> [] ->
  exists fm top picked scored,
    let eif := zip_with (ExpectedImprovement.eif_of norm_cdf norm_pdf fm) g sig in
    let rows :=
      ExpectedImprovement.slice_from
        (Z.of_nat (nrows (ExpectedImprovement.pop self))
         - ExpectedImprovement.n_add self) (argsort eif) in
    ExpectedImprovement.min (ExpectedImprovement.qoi self) = Ok fm /\
    ExpectedImprovement.max eif = Ok top /\
    length eif = nrows (ExpectedImprovement.pop self) /\
    ExpectedImprovement.evaluate_function norm_cdf norm_pdf self =
      Ok ({| nrows := length rows; ncols := ncols (ExpectedImprovement.pop self);
             entries := picked |},
          {| nrows := length rows; ncols := 1; entries := scored |},
          fleb (top / fabs fm)%num (ExpectedImprovement.eif_stop self)) /\
    Forall2 (fun r row => entries (ExpectedImprovement.pop self) !! r = Some row)
      rows picked /\
    Forall2 (fun r v => exists x, eif !! r = Some x /\ v = [x]) rows scored.
Proof.
  intros [Hrows _] Hm Hsurr Hg Hsig Hqoi.
  destruct (min_nonempty _ Hqoi) as [fm Hfm].
  set (eif := zip_with (ExpectedImprovement.eif_of norm_cdf norm_pdf fm) g sig).
  assert (length eif = nrows (ExpectedImprovement.pop self)) as Heif
    by (unfold eif; rewrite length_zip_with; lia).
  destruct (max_nonempty eif) as [top Htop].
  { intros Hnil. rewrite Hnil in Heif. simpl in Heif. lia. }
  set (rows := ExpectedImprovement.slice_from
                 (Z.of_nat (nrows (ExpectedImprovement.pop self))
                  - ExpectedImprovement.n_add self) (argsort eif)).
  assert (Forall (fun r => (r < length eif)%nat) rows) as Hrange.
  { apply Forall_forall. intros r Hr. apply argsort_elem_of.
    by eapply slice_from_subseteq. }
  destruct (take_rows_ok rows (ExpectedImprovement.pop self))
    as (picked & Hok & Hpicked); [by rewrite Hrows, <- Heif|].
  destruct (take_rows_ok rows
    {| nrows := length eif; ncols := 1; entries := (fun x => [x]) <$> eif |})
    as (scored & Hvalues & Hscored); [simpl; by rewrite length_fmap|].
  exists fm, top, picked, scored. simpl. fold eif. fold rows.
  do 3 (split; [done|]). split; [|split; [done|]].
  - unfold ExpectedImprovement.evaluate_function.
    rewrite Hsurr. unfold ExpectedImprovement.reshape.
    rewrite !bool_decide_eq_true_2 by done. simpl.
    rewrite Hfm. simpl. fold eif. rewrite Htop. simpl.
    rewrite Hg. fold rows. rewrite Hok. simpl. by rewrite Hvalues.
  - simpl in Hscored. eapply Forall2_impl; [exact Hscored|].
    intros r v Hv. simpl in Hv. rewrite list_lookup_fmap in Hv.
    destruct (eif !! r) as [x|]; simplify_eq/=. eauto.
Qed.

End evaluate_function_run.

Section evaluate_function_facts.
Context {F : Type} `{ArgSort F} `{!ArithOrder F}.
Variables norm_cdf norm_pdf : F -> F.

(** C10, as the code has it.  For a population of [m >= 1] rows and
    [1 <= n_add <= m], with a surrogate that predicts one value and one
    deviation per row and [fm] the [min] of [qoi], and provided no score
    is [nan], [evaluate_function] returns [n_add] distinct rows of [pop],
    in ascending order of their score, no row left out scoring higher
    than a row returned, together with the scores of these rows; the
    indicator is [True] exactly when the largest score of the population
    divided by [|fm|], in the arithmetic of the code, is [<=]
    [eif_stop].  With a [nan] among the scores the rows are others
    ([evaluate_function_selects_nan]). *)
Theorem evaluate_function_selects (self : ExpectedImprovement.t F) g sig fm :
  wf_matrix (ExpectedImprovement.pop self) ->
  (1 <= ExpectedImprovement.n_add self
     <= Z.of_nat (nrows (ExpectedImprovement.pop self)))%Z ->
  ExpectedImprovement.surrogate self (ExpectedImprovement.pop self) true = (g, sig) ->
  length g = nrows (ExpectedImprovement.pop self) ->
  length sig = nrows (ExpectedImprovement.pop self) ->
  ExpectedImprovement.min (ExpectedImprovement.qoi self) = Ok fm ->
  Forall (fun x => is_nan x = false)
    (zip_with (ExpectedImprovement.eif_of norm_cdf norm_pdf fm) g sig) ->
  exists rows new_samples values top indicator,
    let eif := zip_with (ExpectedImprovement.eif_of norm_cdf norm_pdf fm) g sig in
    ExpectedImprovement.evaluate_function norm_cdf norm_pdf self
      = Ok (new_samples, values, indicator) /\
    length eif = nrows (ExpectedImprovement.pop self) /\
    length rows = Z.to_nat (ExpectedImprovement.n_add self) /\
    NoDup rows /\
    nrows new_samples = Z.to_nat (ExpectedImprovement.n_add self) /\
    ncols new_samples = ncols (ExpectedImprovement.pop self) /\
    Forall2 (fun r row => entries (ExpectedImprovement.pop self) !! r = Some row)
      rows (entries new_samples) /\
    Forall2 (fun r v => exists x, eif !! r = Some x /\ v = [x])
      rows (entries values) /\
    (forall i j x y, (i <= j)%nat ->
       (rows !! i ≫= (eif !!.)) = Some x -> (rows !! j ≫= (eif !!.)) = Some y ->
       fleb x y = true) /\
    (forall c r x y, c ∉ rows -> r ∈ rows ->
       eif !! c = Some x -> eif !! r = Some y -> fleb x y = true) /\
    ExpectedImprovement.max eif = Ok top /\
    top ∈ eif /\ (forall x, x ∈ eif -> fleb x top = true) /\
    (indicator = true <->
       fleb (top / fabs fm)%num (ExpectedImprovement.eif_stop self) = true).
Proof.
  intros Hwf Hadd Hsurr Hg Hsig Hfm Hnan.
  destruct (evaluate_function_any norm_cdf norm_pdf self g sig)
    as (fm' & top & picked & scored & Hfm' & Htop & Heif & Hrun & Hpicked & Hscored);
    try done; [lia|by eapply min_nonempty_inv|].
  rewrite Hfm in Hfm'. injection Hfm' as <-. simpl in *.
  set (eif := zip_with (ExpectedImprovement.eif_of norm_cdf norm_pdf fm) g sig) in *.
  assert (forall r y, eif !! r = Some y -> is_nan y = false) as Hval.
  { intros r y Hy. rewrite Forall_forall in Hnan.
    apply Hnan, list_elem_of_lookup. eauto. }
  pose proof (argsort_length eif) as Hlen.
  replace (Z.of_nat (nrows (ExpectedImprovement.pop self)))
    with (Z.of_nat (length (argsort eif))) in Hrun, Hpicked, Hscored by lia.
  rewrite slice_from_last in Hrun, Hpicked, Hscored by lia.
  rewrite Hlen in Hrun, Hpicked, Hscored.
  set (rows := drop (length eif - Z.to_nat (ExpectedImprovement.n_add self))
                 (argsort eif)) in *.
  destruct (argsort_last eif (Z.to_nat (ExpectedImprovement.n_add self)))
    as (Hrlen & Hnodup & Hrange & Hasc & Hlargest); [lia|].
  fold rows in Hrlen, Hnodup, Hrange, Hasc, Hlargest.
  destruct (max_spec _ _ Hnan Htop) as [Htop_in Htop_max].
  eexists rows, _, _, top, _. split; [exact Hrun|]. simpl.
  repeat split; try done.
  - intros i j x y Hij Hx Hy. apply sort_le_fleb; [|by eapply Hasc].
    destruct (rows !! j) as [r|]; simplify_eq/=. by eapply Hval.
  - intros c r x y Hc Hr Hx Hy. apply sort_le_fleb; [|by eapply Hlargest].
    by eapply Hval.
Qed.

End evaluate_function_facts.

(** ** ExpectedImprovement: concrete runs *)

Lemma evaluate_function_selects_witness :
  exists rows new_samples values top indicator,
    let eif := zip_with (ExpectedImprovement.eif_of Standin.cdf Standin.pdf 1%float)
                 [3; 1; 2]%float [1; 1; 1]%float in
    ExpectedImprovement.evaluate_function Standin.cdf Standin.pdf Standin.learner
      = Ok (new_samples, values, indicator) /\
    length eif = 3%nat /\
    length rows = 2%nat /\
    NoDup rows /\
    nrows new_samples = 2%nat /\
    ncols new_samples = 2%nat /\
    Forall2 (fun r row => [[3; 0]; [1; 0]; [2; 1]]%float !! r = Some row)
      rows (entries new_samples) /\
    Forall2 (fun r v => exists x, eif !! r = Some x /\ v = [x])
      rows (entries values) /\
    (forall i j x y, (i <= j)%nat ->
       (rows !! i ≫= (eif !!.)) = Some x -> (rows !! j ≫= (eif !!.)) = Some y ->
       (x <=? y)%float = true) /\
    (forall c r x y, c ∉ rows -> r ∈ rows ->
       eif !! c = Some x -> eif !! r = Some y -> (x <=? y)%float = true) /\
    ExpectedImprovement.max eif = Ok top /\
    top ∈ eif /\ (forall x, x ∈ eif -> (x <=? top)%float = true) /\
    (indicator = true <-> (top / abs 1 <=? 1 / 100)%float = true).
Proof.
  refine (evaluate_function_selects Standin.cdf Standin.pdf
            (Standin.learner (F := float)) [3; 1; 2]%float [1; 1; 1]%float 1%float
            _ _ _ _ _ _ _);
    [split; [reflexivity | repeat constructor]
    | simpl; lia | reflexivity | reflexivity | reflexivity | reflexivity
    | repeat constructor].
Defined.

(** The run itself: the two best rows are returned, the better one last. *)
Lemma evaluate_function_run :
  exists values indicator,
    ExpectedImprovement.evaluate_function Standin.cdf Standin.pdf
      (Standin.learner (F := float))
      = Ok ({| nrows := 2; ncols := 2; entries := [[2; 1]; [1; 0]]%float |},
            values, indicator) /\
    indicator = false.
Proof. eexists _, _. split; vm_compute; reflexivity. Qed.

(** Against C10 as stated, in binary64.  At the first point of
    [degenerate_learner] the score is [0 * cdf (0 / 0) + 0 * pdf (0 / 0)],
    which is [nan] (with scipy's functions as with the stand-ins: both
    give [nan] at [nan]); at the second it is [-0.125].  [argsort] puts
    [nan] last, so the one row returned is the first, and its score is
    not at least the score of the row left out: no comparison with [nan]
    holds. *)
Lemma evaluate_function_selects_nan :
  zip_with (ExpectedImprovement.eif_of Standin.cdf Standin.pdf 1%float)
    [1; 2]%float [0; 1]%float = [nan; (-0.125)%float] /\
  ExpectedImprovement.evaluate_function Standin.cdf Standin.pdf degenerate_learner
    = Ok ({| nrows := 1; ncols := 2; entries := [[1; 0]]%float |},
          {| nrows := 1; ncols := 1; entries := [[nan]] |},
          false) /\
  (-0.125 <=? nan)%float = false /\
  (-0.125 <? nan)%float = false.
Proof. repeat split; vm_compute; reflexivity. Qed.

(** * Further facts *)

(** ** Criterion: what [create_bins] leaves alone *)

Section criterion_frame.
Context {F : Type} `{RandomSource F}.

Lemma uniform_rvs_world n rs w xs w' :
  stats.uniform_rvs n rs w = Ok (xs, w') -> exists g, w' = stats.advance w rs g.
Proof.
  unfold stats.uniform_rvs.
  destruct (stats.check_random_state w rs) as [g|e] eqn:Hg; simpl; [|done].
  destruct (stats.random_samples n g) as [ys g']. intros [= <- <-]. eauto.
Qed.

(** A draw allocates nothing and changes one generator at most: the one the
    random source names. *)
Lemma uniform_rvs_frame n rs w xs w' :
  stats.uniform_rvs n rs w = Ok (xs, w') ->
  dom (objects w') = dom (objects w) /\
  (forall l, rs <> PyRandomState l -> objects w' !! l = objects w !! l) /\
  (rs <> PyNone -> mtrand_rand w' = mtrand_rand w).
Proof.
  unfold stats.uniform_rvs.
  destruct (stats.check_random_state w rs) as [g|e] eqn:Hg; simpl; [|done].
  destruct (stats.random_samples n g) as [ys g']. intros [= <- <-].
  destruct rs as [| | | |l0]; simpl in *; try done.
  destruct (objects w !! l0) as [g0|] eqn:Hl0; [|done].
  split; [|split; [|done]].
  - apply dom_insert_lookup_L. by eexists.
  - intros l Hl. apply lookup_insert_ne. congruence.
Qed.

Lemma fill_columns_frame cols : forall n u w self,
  dom (objects (Criterion.fill_columns cols n u w self).1.1) = dom (objects w) /\
  (forall l, Criterion.random_state self <> PyRandomState l ->
     objects (Criterion.fill_columns cols n u w self).1.1 !! l = objects w !! l) /\
  (Criterion.random_state self <> PyNone ->
     mtrand_rand (Criterion.fill_columns cols n u w self).1.1 = mtrand_rand w).
Proof.
  induction cols as [|i cols IH]; intros n u w self; simpl; [done|].
  destruct (stats.uniform_rvs n (Criterion.random_state self) w)
    as [[col w']|e] eqn:Hrvs; simpl; [|done].
  destruct (uniform_rvs_frame _ _ _ _ _ Hrvs) as (Hdom & Hobj & Hglobal).
  match goal with |- context [Criterion.fill_columns cols n ?u' w' ?s'] =>
    destruct (IH n u' w' s') as (IHdom & IHobj & IHglobal) end.
  simpl in *. split; [congruence|]. split.
  - intros l Hl. rewrite IHobj by done. by apply Hobj.
  - intros Hrs. rewrite IHglobal by done. by apply Hglobal.
Qed.

(** X2.  Whatever its input and its outcome, [create_bins] keeps the
    sampler's [random_state] attribute, allocates no generator, changes no
    generator other than the one the sampler draws from and, unless the
    sampler draws from it, leaves numpy's global generator as it is. *)
Theorem create_bins_frame w self m :
  Criterion.random_state (Criterion.create_bins w self m).1.2
    = Criterion.random_state self /\
  dom (objects (Criterion.create_bins w self m).1.1) = dom (objects w) /\
  (forall l, Criterion.random_state self <> PyRandomState l ->
     objects (Criterion.create_bins w self m).1.1 !! l = objects w !! l) /\
  (Criterion.random_state self <> PyNone ->
     mtrand_rand (Criterion.create_bins w self m).1.1 = mtrand_rand w).
Proof.
  unfold Criterion.create_bins.
  destruct (Criterion.shape_at m 0) as [n|e]; simpl; [|done].
  destruct (Criterion.shape_at m 1) as [d|e]; simpl; [|done].
  match goal with |- context [Criterion.fill_columns ?c ?k ?u w ?s] =>
    destruct (fill_columns_keeps c k u w s) as (_ & _ & ->);
    destruct (fill_columns_frame c k u w s) as (Hdom & Hobj & Hglobal) end.
  done.
Qed.

End criterion_frame.

(** ** Criterion: the shape of the input *)

Section criterion_shapes.
Context {F : Type} `{RandomSource F}.

(** X3.  [create_bins] reads the first two entries of the shape.  On a
    0-d input it raises [IndexError] and changes nothing; on a 1-d input
    of length [n] it raises [IndexError] after it has replaced [a] and [b]
    by the bounds for [n] rows, with [samples] and every generator as
    before; on an input of more than two dimensions it does what it does
    on the 2-d input of the first two. *)
Theorem create_bins_dimensions w self m :
  (shape m = [] -> Criterion.create_bins w self m = (w, self, Raise IndexError)) /\
  (forall n, shape m = [n] ->
     Criterion.create_bins w self m =
       (w, {| Criterion.a := Criterion.Array (lower_bounds n);
              Criterion.b := Criterion.Array (upper_bounds n);
              Criterion.samples := Criterion.samples self;
              Criterion.random_state := Criterion.random_state self |},
        Raise IndexError)) /\
  (forall n d rest m2, shape m = n :: d :: rest -> shape m2 = [n; d] ->
     Criterion.create_bins w self m = Criterion.create_bins w self m2).
Proof.
  unfold Criterion.create_bins, Criterion.shape_at. repeat split.
  - by intros ->.
  - by intros n ->.
  - by intros n d rest m2 -> ->.
Qed.

(** X4.  On an input with no row or no column ([n * d = 0]) and a usable
    random source, [create_bins] returns normally without drawing: the
    interpreter state is as before, [samples] is the empty [n] by [d]
    array of zeros and [a], [b] are the bounds for [n] rows. *)
Theorem create_bins_empty w self m n d :
  shape m = [n; d] -> (n * d = 0)%nat ->
  Criterion.usable w (Criterion.random_state self) = true ->
  Criterion.create_bins w self m =
    (w, {| Criterion.a := Criterion.Array (lower_bounds n);
           Criterion.b := Criterion.Array (upper_bounds n);
           Criterion.samples := np.zeros n d;
           Criterion.random_state := Criterion.random_state self |}, Ok ()).
Proof.
  intros Hshape Hnd Hus.
  destruct (usable_check _ _ Hus) as [g Hg].
  destruct n as [|n].
  - by rewrite (create_bins_no_rows w self m d g).
  - assert (d = 0%nat) as -> by lia.
    rewrite (create_bins_run w self m (S n) 0 g) by done. simpl.
    by rewrite advance_same.
Qed.

End criterion_shapes.

Lemma create_bins_empty_witness :
  Criterion.create_bins Scripted64.fresh_world Scripted64.sampler
    (Scripted64.input 3 0) =
    (Scripted64.fresh_world,
     {| Criterion.a := Criterion.Array (lower_bounds 3);
        Criterion.b := Criterion.Array (upper_bounds 3);
        Criterion.samples := np.zeros 3 0;
        Criterion.random_state := PyNone |}, Ok ()).
Proof.
  apply (create_bins_empty Scripted64.fresh_world Scripted64.sampler
           (Scripted64.input 3 0) 3 0); reflexivity.
Defined.

(** ** Criterion: the stratified matrix as a whole *)

Section criterion_matrix.
Context {F : Type} `{RandomSource F}.

(** A well-formed array has an entry exactly at the positions of its
    shape. *)
Lemma wf_matrix_get (m : matrix F) i j :
  wf_matrix m ->
  is_Some (np.get m i j) <-> (i < nrows m)%nat /\ (j < ncols m)%nat.
Proof.
  intros [Hrows Hcols]. unfold np.get. split.
  - intros [x Hx].
    destruct (entries m !! i) as [row|] eqn:Hrow; simplify_eq/=.
    pose proof (lookup_lt_Some _ _ _ Hrow) as Hi.
    pose proof (lookup_lt_Some _ _ _ Hx) as Hj.
    eapply Forall_lookup_1 in Hcols; [|exact Hrow]. simpl in Hcols. lia.
  - intros [Hi Hj].
    destruct (lookup_lt_is_Some_2 (entries m) i) as [row Hrow]; [lia|].
    rewrite Hrow. simpl. apply lookup_lt_is_Some_2.
    eapply Forall_lookup_1 in Hcols; [|exact Hrow]. simpl in Hcols. lia.
Qed.

(** The matrix [create_bins] writes from the generator [g]. *)
Lemma stratified_matrix_wf n d g :
  wf_matrix
    (write_columns 0
       (stratify (lower_bounds n) (upper_bounds n) <$> (draw_columns d n g).1)
       (np.zeros n d)) /\
  nrows
    (write_columns 0
       (stratify (lower_bounds n) (upper_bounds n) <$> (draw_columns d n g).1)
       (np.zeros n d)) = n /\
  ncols
    (write_columns 0
       (stratify (lower_bounds n) (upper_bounds n) <$> (draw_columns d n g).1)
       (np.zeros n d)) = d.
Proof.
  destruct (bounds_length (F := F) n) as [Hla Hlb].
  apply write_columns_wf; [apply zeros_wf|].
  apply Forall_fmap, Forall_forall. intros col Hin. simpl.
  apply stratify_length; try done.
  pose proof (draw_columns_each d n g) as Heach.
  rewrite Forall_forall in Heach. by apply Heach.
Qed.

(** Its entry in row [i] and column [j]: the draw [j * n + i] of [g], moved
    into stratum [i]. *)
Lemma stratified_matrix_entry n d g i j :
  (i < n)%nat -> (j < d)%nat ->
  exists u lo hi,
    np.get
      (write_columns 0
         (stratify (lower_bounds n) (upper_bounds n) <$> (draw_columns d n g).1)
         (np.zeros n d)) i j = Some (u * (hi - lo) + lo)%num /\
    (stats.random_samples (d * n) g).1 !! (j * n + i)%nat = Some u /\
    lower_bounds n !! i = Some lo /\ upper_bounds n !! i = Some hi.
Proof.
  intros Hi Hj.
  destruct (draw_columns_stream d n g) as [Hflat _].
  pose proof (draw_columns_length d n g) as Hcount.
  pose proof (draw_columns_each d n g) as Heach.
  destruct (bounds_length (F := F) n) as [Hla Hlb].
  destruct (lookup_lt_is_Some_2 (draw_columns d n g).1 j) as [col Hcol]; [lia|].
  assert (length col = n) as Hlen by (eapply Forall_lookup_1 in Heach; eauto).
  destruct (lookup_lt_is_Some_2 col i) as [u Hu]; [lia|].
  destruct (lookup_lt_is_Some_2 (lower_bounds (F := F) n) i) as [lo Hlo]; [lia|].
  destruct (lookup_lt_is_Some_2 (upper_bounds (F := F) n) i) as [hi Hhi]; [lia|].
  assert ((stats.random_samples (d * n) g).1 !! (j * n + i)%nat = Some u) as Hdraw.
  { rewrite <- Hflat, (concat_lookup_uniform _ n) by done. by rewrite Hcol. }
  exists u, lo, hi. split; [|done].
  rewrite get_write_columns; simpl; rewrite ?length_fmap, ?Hcount; try lia.
  - rewrite bool_decide_eq_true_2 by lia.
    rewrite Nat.sub_0_r, list_lookup_fmap, Hcol. simpl.
    by apply stratify_lookup.
  - apply zeros_wf.
  - apply Forall_fmap, Forall_forall. intros c Hin. simpl.
    apply stratify_length; try done.
    rewrite Forall_forall in Heach. by apply Heach.
Qed.

(** X5.  After [create_bins] on an [n] by [d] input, [samples] is an [n]
    by [d] array, whatever it was before: its rows are [n], each of
    length [d], and it has an entry at a position exactly when the input
    has one.  What the sampler held in [samples] before the call, of
    whatever shape, is gone. *)
Theorem create_bins_matrix_shape w self m n d :
  shape m = [n; d] ->
  Criterion.usable w (Criterion.random_state self) = true ->
  exists w' self',
    Criterion.create_bins w self m = (w', self', Ok ()) /\
    wf_matrix (Criterion.samples self') /\
    nrows (Criterion.samples self') = n /\
    ncols (Criterion.samples self') = d /\
    (forall i j,
       is_Some (np.get (Criterion.samples self') i j) <->
       (i < n)%nat /\ (j < d)%nat).
Proof.
  intros Hshape Hus.
  destruct (usable_check _ _ Hus) as [g Hg].
  rewrite (create_bins_run w self m n d g) by done.
  eexists _, _. split; [reflexivity|]. simpl.
  destruct (stratified_matrix_wf n d g) as (Hwf & Hrows & Hcols).
  do 3 (split; [done|]).
  intros i j. rewrite wf_matrix_get by done. by rewrite Hrows, Hcols.
Qed.

(** X6.  Two calls of [create_bins] that draw from the same generator, on
    one sampler or on two samplers constructed with the same generator
    instance (or both with none), do not repeat draws: the second call
    takes up the stream where the first left it.  After shapes [(n1, d1)]
    and [(n2, d2)] the generator has given [d1 * n1 + d2 * n2] draws, and
    entry [(i, j)] of the second matrix is made from draw
    [d1 * n1 + j * n2 + i]. *)
Theorem create_bins_twice w self1 self2 m1 m2 n1 d1 n2 d2 g :
  shape m1 = [n1; d1] -> shape m2 = [n2; d2] ->
  Criterion.random_state self2 = Criterion.random_state self1 ->
  Criterion.usable w (Criterion.random_state self1) = true ->
  stats.check_random_state w (Criterion.random_state self1) = Ok g ->
  exists w1 self1' w2 self2',
    Criterion.create_bins w self1 m1 = (w1, self1', Ok ()) /\
    Criterion.create_bins w1 self2 m2 = (w2, self2', Ok ()) /\
    stats.check_random_state w2 (Criterion.random_state self1)
      = Ok (stats.random_samples (d1 * n1 + d2 * n2) g).2 /\
    forall i j, (i < n2)%nat -> (j < d2)%nat ->
      exists u lo hi,
        np.get (Criterion.samples self2') i j = Some (u * (hi - lo) + lo)%num /\
        (stats.random_samples (d1 * n1 + d2 * n2) g).1
          !! (d1 * n1 + (j * n2 + i))%nat = Some u /\
        lower_bounds n2 !! i = Some lo /\ upper_bounds n2 !! i = Some hi.
Proof.
  intros Hshape1 Hshape2 Hrs Hus Hg.
  pose proof (create_bins_run w self1 m1 n1 d1 g Hshape1 Hus Hg) as Hrun1.
  destruct (draw_columns_stream d1 n1 g) as [_ Hg1]. rewrite Hg1 in Hrun1.
  set (g1 := (stats.random_samples (d1 * n1) g).2) in *.
  set (w1 := stats.advance w (Criterion.random_state self1) g1) in *.
  assert (Criterion.usable w1 (Criterion.random_state self2) = true) as Hus2
    by (rewrite Hrs; by apply usable_advance).
  assert (stats.check_random_state w1 (Criterion.random_state self2) = Ok g1) as Hg2
    by (rewrite Hrs; by apply check_advance).
  pose proof (create_bins_run w1 self2 m2 n2 d2 g1 Hshape2 Hus2 Hg2) as Hrun2.
  destruct (draw_columns_stream d2 n2 g1) as [_ Hg2'].
  eexists _, _, _, _. split; [exact Hrun1|]. split; [exact Hrun2|]. simpl.
  rewrite random_samples_app. fold g1. simpl. split.
  - rewrite Hrs. unfold w1. rewrite advance_advance, check_advance by done.
    by rewrite Hg2'.
  - intros i j Hi Hj.
    destruct (stratified_matrix_entry n2 d2 g1 i j Hi Hj)
      as (u & lo & hi & Hget & Hdraw & Hlo & Hhi).
    exists u, lo, hi. split; [done|]. split; [|done].
    rewrite lookup_app_r; rewrite random_samples_length; [|lia].
    rewrite <- Hdraw. f_equal. lia.
Qed.

End criterion_matrix.

Lemma create_bins_matrix_shape_witness :
  exists w' self',
    Criterion.create_bins Scripted64.fresh_world Scripted64.sampler
      (Scripted64.input 3 2) = (w', self', Ok ()) /\
    wf_matrix (Criterion.samples self') /\
    nrows (Criterion.samples self') = 3%nat /\
    ncols (Criterion.samples self') = 2%nat /\
    (forall i j,
       is_Some (np.get (Criterion.samples self') i j) <->
       (i < 3)%nat /\ (j < 2)%nat).
Proof.
  apply (create_bins_matrix_shape Scripted64.fresh_world
           Scripted64.sampler (Scripted64.input 3 2) 3 2); reflexivity.
Defined.

Lemma create_bins_twice_witness :
  exists w1 self1' w2 self2',
    Criterion.create_bins Scripted64.fresh_world Scripted64.sampler
      (Scripted64.input 3 2) = (w1, self1', Ok ()) /\
    Criterion.create_bins w1 Scripted64.sampler (Scripted64.input 2 1)
      = (w2, self2', Ok ()) /\
    stats.check_random_state w2 PyNone
      = Ok (stats.random_samples (2 * 3 + 1 * 2)
            (mtrand_rand Scripted64.fresh_world)).2 /\
    forall i j, (i < 2)%nat -> (j < 1)%nat ->
      exists u lo hi,
        np.get (Criterion.samples self2') i j = Some (u * (hi - lo) + lo)%float /\
        (stats.random_samples (2 * 3 + 1 * 2)
            (mtrand_rand Scripted64.fresh_world)).1
          !! (2 * 3 + (j * 2 + i))%nat = Some u /\
        lower_bounds 2 !! i = Some lo /\ upper_bounds 2 !! i = Some hi.
Proof.
  apply (create_bins_twice Scripted64.fresh_world Scripted64.sampler
           Scripted64.sampler (Scripted64.input 3 2) (Scripted64.input 2 1) 3 2 2 1
           (mtrand_rand Scripted64.fresh_world)); reflexivity.
Defined.

(** ** ExpectedImprovement: every [n_add], and the errors *)

Section evaluate_function_edges.
Context {F : Type} `{ArgSort F}.
Variables norm_cdf norm_pdf : F -> F.

(** X7.  How many rows [evaluate_function] returns, for a population of
    [m >= 1] rows and any [n_add]: none for [n_add <= 0], [n_add] for
    [0 <= n_add <= m], all [m] for [n_add >= 2 * m], and, because a start
    [m - n_add] below zero counts from the end of the array, only
    [n_add - m] for [m < n_add <= 2 * m]. *)
Theorem evaluate_function_count (self : ExpectedImprovement.t F) g sig :
  wf_matrix (ExpectedImprovement.pop self) ->
  (1 <= nrows (ExpectedImprovement.pop self))%nat ->
  ExpectedImprovement.surrogate self (ExpectedImprovement.pop self) true = (g, sig) ->
  length g = nrows (ExpectedImprovement.pop self) ->
  length sig = nrows (ExpectedImprovement.pop self) ->
  ExpectedImprovement.qoi self <> [] ->
  exists new_samples values indicator,
    ExpectedImprovement.evaluate_function norm_cdf norm_pdf self
      = Ok (new_samples, values, indicator) /\
    length (entries new_samples) = nrows new_samples /\
    length (entries values) = nrows new_samples /\
    nrows values = nrows new_samples /\
    let m := Z.of_nat (nrows (ExpectedImprovement.pop self)) in
    let k := ExpectedImprovement.n_add self in
    ((k <= 0)%Z -> nrows new_samples = 0%nat) /\
    ((0 <= k <= m)%Z -> nrows new_samples = Z.to_nat k) /\
    ((m < k <= 2 * m)%Z -> nrows new_samples = Z.to_nat (k - m)) /\
    ((2 * m <= k)%Z -> nrows new_samples = Z.to_nat m).
Proof.
  intros Hwf Hm Hsurr Hg Hsig Hqoi.
  destruct (evaluate_function_any norm_cdf norm_pdf self g sig)
    as (fm & top & picked & scored & _ & _ & Heif & Hrun & Hpicked & Hscored);
    try done.
  simpl in *. eexists _, _, _. split; [exact Hrun|]. simpl.
  split; [symmetry; by eapply Forall2_length|].
  split; [symmetry; by eapply Forall2_length|].
  split; [done|].
  match goal with |- context [length (ExpectedImprovement.slice_from ?s ?l)] =>
    pose proof (slice_from_length s l) as Hlen end.
  rewrite argsort_length, Heif in Hlen.
  destruct (Z.ltb_spec (Z.of_nat (nrows (ExpectedImprovement.pop self))
                        - ExpectedImprovement.n_add self) 0); lia.
Qed.

(** X8.  When [evaluate_function] fails: with a surrogate that returns a
    number of predictions or of deviations other than the number of rows
    of [pop], with an empty [qoi], or with an empty [pop], it raises
    [ValueError]; in every other case it returns a result. *)
Theorem evaluate_function_errors (self : ExpectedImprovement.t F) g sig :
  wf_matrix (ExpectedImprovement.pop self) ->
  ExpectedImprovement.surrogate self (ExpectedImprovement.pop self) true = (g, sig) ->
  (length g <> nrows (ExpectedImprovement.pop self) \/
   length sig <> nrows (ExpectedImprovement.pop self) \/
   ExpectedImprovement.qoi self = [] \/
   nrows (ExpectedImprovement.pop self) = 0%nat ->
   ExpectedImprovement.evaluate_function norm_cdf norm_pdf self = Raise ValueError) /\
  (length g = nrows (ExpectedImprovement.pop self) ->
   length sig = nrows (ExpectedImprovement.pop self) ->
   ExpectedImprovement.qoi self <> [] ->
   nrows (ExpectedImprovement.pop self) <> 0%nat ->
   exists r, ExpectedImprovement.evaluate_function norm_cdf norm_pdf self = Ok r).
Proof.
  intros Hwf Hsurr. split.
  - intros Hbad. unfold ExpectedImprovement.evaluate_function.
    rewrite Hsurr. unfold ExpectedImprovement.reshape.
    destruct (decide (length g = nrows (ExpectedImprovement.pop self))) as [Hg|Hg];
      [rewrite (bool_decide_eq_true_2 _ Hg)
      |by rewrite (bool_decide_eq_false_2 _ Hg)].
    destruct (decide (length sig = nrows (ExpectedImprovement.pop self))) as [Hs|Hs];
      [rewrite (bool_decide_eq_true_2 _ Hs)
      |by rewrite (bool_decide_eq_false_2 _ Hs)].
    simpl.
    destruct (ExpectedImprovement.qoi self) as [|q qoi] eqn:Hqoi; simpl; [done|].
    destruct Hbad as [?|[?|[?|Hm]]]; try done.
    rewrite Hm in Hg.
    apply length_zero_iff_nil in Hg as ->. by simpl.
  - intros Hg Hsig Hqoi Hm.
    destruct (evaluate_function_any norm_cdf norm_pdf self g sig)
      as (fm & top & picked & scored & _ & _ & _ & Hrun & _); try done; [lia|].
    eauto.
Qed.

End evaluate_function_edges.

Section evaluate_function_last.
Context {F : Type} `{ArgSort F}.
Variables norm_cdf norm_pdf : F -> F.

(** For [n_add >= 1] the slice of the sorted indices is not empty and
    ends where the sort ends: the last row returned is the row at the
    last index of [argsort], whatever the scores. *)
Lemma evaluate_function_last (self : ExpectedImprovement.t F) g sig fm :
  wf_matrix (ExpectedImprovement.pop self) ->
  (1 <= nrows (ExpectedImprovement.pop self))%nat ->
  (1 <= ExpectedImprovement.n_add self)%Z ->
  ExpectedImprovement.surrogate self (ExpectedImprovement.pop self) true = (g, sig) ->
  length g = nrows (ExpectedImprovement.pop self) ->
  length sig = nrows (ExpectedImprovement.pop self) ->
  ExpectedImprovement.min (ExpectedImprovement.qoi self) = Ok fm ->
  exists new_samples values top r best,
    let eif := zip_with (ExpectedImprovement.eif_of norm_cdf norm_pdf fm) g sig in
    ExpectedImprovement.evaluate_function norm_cdf norm_pdf self
      = Ok (new_samples, values,
            fleb (top / fabs fm)%num (ExpectedImprovement.eif_stop self)) /\
    ExpectedImprovement.max eif = Ok top /\
    length eif = nrows (ExpectedImprovement.pop self) /\
    argsort eif !! (nrows (ExpectedImprovement.pop self) - 1)%nat = Some r /\
    eif !! r = Some best /\
    last (entries values) = Some [best] /\
    last (entries new_samples) = entries (ExpectedImprovement.pop self) !! r.
Proof.
  intros Hwf Hm Hadd Hsurr Hg Hsig Hfm.
  destruct (evaluate_function_any norm_cdf norm_pdf self g sig)
    as (fm' & top & picked & scored & Hfm' & Htop & Heif & Hrun & Hpicked & Hscored);
    try done; [by eapply min_nonempty_inv|].
  rewrite Hfm in Hfm'. injection Hfm' as <-. simpl in *.
  set (eif := zip_with (ExpectedImprovement.eif_of norm_cdf norm_pdf fm) g sig) in *.
  set (m := nrows (ExpectedImprovement.pop self)) in *.
  set (rows := ExpectedImprovement.slice_from
                 (Z.of_nat m - ExpectedImprovement.n_add self) (argsort eif)) in *.
  pose proof (argsort_length eif) as Hlen.
  assert (exists r, last rows = Some r /\ argsort eif !! (m - 1)%nat = Some r)
    as (r & Hlast & Hr).
  { unfold rows, ExpectedImprovement.slice_from.
    set (k := Z.to_nat _).
    assert (k < m)%nat as Hk.
    { unfold k. rewrite Hlen, Heif.
      destruct (Z.ltb_spec (Z.of_nat m - ExpectedImprovement.n_add self) 0); lia. }
    destruct (lookup_lt_is_Some_2 (argsort eif) (m - 1)) as [r Hr]; [lia|].
    exists r. split; [|done].
    rewrite last_lookup, lookup_drop, length_drop, <- Hr. f_equal. lia. }
  destruct (lookup_lt_is_Some_2 eif r) as [best Hbest].
  { apply argsort_elem_of. apply list_elem_of_lookup. eauto. }
  eexists _, _, top, r, best. split; [exact Hrun|]. simpl.
  pose proof (Forall2_last _ _ _ Hscored) as Hls.
  pose proof (Forall2_last _ _ _ Hpicked) as Hlp.
  rewrite Hlast in Hls, Hlp.
  inversion Hls as [? v (x & Hx & ->) Ha Hb|]; subst.
  inversion Hlp as [? row Hrow Ha' Hb'|]; subst.
  rewrite Hbest in Hx. by simplify_eq.
Qed.

End evaluate_function_last.

Section evaluate_function_best.
Context {F : Type} `{ArgSort F} `{!ArithOrder F}.
Variables norm_cdf norm_pdf : F -> F.

(** X9.  For [n_add >= 1], and provided no score is [nan], the last row
    returned is a best one: its score, the last of the values returned,
    is at least every score of the population, and it compares equal to
    the largest score, the one whose quotient by [|min(qoi)|] the
    stopping indicator compares with [eif_stop]. *)
Theorem evaluate_function_last_is_best (self : ExpectedImprovement.t F) g sig fm :
  wf_matrix (ExpectedImprovement.pop self) ->
  (1 <= nrows (ExpectedImprovement.pop self))%nat ->
  (1 <= ExpectedImprovement.n_add self)%Z ->
  ExpectedImprovement.surrogate self (ExpectedImprovement.pop self) true = (g, sig) ->
  length g = nrows (ExpectedImprovement.pop self) ->
  length sig = nrows (ExpectedImprovement.pop self) ->
  ExpectedImprovement.min (ExpectedImprovement.qoi self) = Ok fm ->
  Forall (fun x => is_nan x = false)
    (zip_with (ExpectedImprovement.eif_of norm_cdf norm_pdf fm) g sig) ->
  exists new_samples values indicator r best top,
    let eif := zip_with (ExpectedImprovement.eif_of norm_cdf norm_pdf fm) g sig in
    ExpectedImprovement.evaluate_function norm_cdf norm_pdf self
      = Ok (new_samples, values, indicator) /\
    last (entries values) = Some [best] /\
    eif !! r = Some best /\
    last (entries new_samples) = entries (ExpectedImprovement.pop self) !! r /\
    (forall y, y ∈ eif -> fleb y best = true) /\
    ExpectedImprovement.max eif = Ok top /\
    fleb top best = true /\ fleb best top = true /\
    (indicator = true <->
       fleb (top / fabs fm)%num (ExpectedImprovement.eif_stop self) = true).
Proof.
  intros Hwf Hm Hadd Hsurr Hg Hsig Hfm Hnan.
  destruct (evaluate_function_last norm_cdf norm_pdf self g sig fm)
    as (new_samples & values & top & r & best
        & Hrun & Htop & Heif & Hr & Hbest & Hvalues & Hrows); try done.
  simpl in *.
  set (eif := zip_with (ExpectedImprovement.eif_of norm_cdf norm_pdf fm) g sig) in *.
  assert (is_nan best = false) as Hbest_nan.
  { rewrite Forall_forall in Hnan. apply Hnan, list_elem_of_lookup. eauto. }
  assert (forall y, y ∈ eif -> fleb y best = true) as Hmax.
  { intros y [c Hc]%list_elem_of_lookup.
    assert (c ∈ argsort eif) as [p Hp]%list_elem_of_lookup
      by (apply argsort_elem_of; by eapply lookup_lt_Some).
    pose proof (lookup_lt_Some _ _ _ Hp) as Hplt.
    rewrite argsort_length, Heif in Hplt.
    apply sort_le_fleb; [done|].
    apply (argsort_sorted eif p (nrows (ExpectedImprovement.pop self) - 1));
      [lia| |].
    - by rewrite Hp.
    - by rewrite Hr. }
  destruct (max_spec _ _ Hnan Htop) as [Htop_in Htop_max].
  eexists _, _, _, r, best, top. split; [exact Hrun|].
  repeat split; try done.
  - by apply Hmax.
  - apply Htop_max, list_elem_of_lookup. eauto.
Qed.

(** X11.  [argsort] sorts [nan] last, so for [n_add >= 1] a [nan] among
    the scores, wherever it is, makes the last row returned one with a
    [nan] score: a point at which the score is not a number is returned
    as if it were the best. *)
Theorem evaluate_function_nan_is_last (self : ExpectedImprovement.t F) g sig fm :
  wf_matrix (ExpectedImprovement.pop self) ->
  (1 <= nrows (ExpectedImprovement.pop self))%nat ->
  (1 <= ExpectedImprovement.n_add self)%Z ->
  ExpectedImprovement.surrogate self (ExpectedImprovement.pop self) true = (g, sig) ->
  length g = nrows (ExpectedImprovement.pop self) ->
  length sig = nrows (ExpectedImprovement.pop self) ->
  ExpectedImprovement.min (ExpectedImprovement.qoi self) = Ok fm ->
  Exists (fun x => is_nan x = true)
    (zip_with (ExpectedImprovement.eif_of norm_cdf norm_pdf fm) g sig) ->
  exists new_samples values indicator r best,
    let eif := zip_with (ExpectedImprovement.eif_of norm_cdf norm_pdf fm) g sig in
    ExpectedImprovement.evaluate_function norm_cdf norm_pdf self
      = Ok (new_samples, values, indicator) /\
    last (entries values) = Some [best] /\
    eif !! r = Some best /\
    last (entries new_samples) = entries (ExpectedImprovement.pop self) !! r /\
    is_nan best = true.
Proof.
  intros Hwf Hm Hadd Hsurr Hg Hsig Hfm Hnan.
  destruct (evaluate_function_last norm_cdf norm_pdf self g sig fm)
    as (new_samples & values & top & r & best
        & Hrun & Htop & Heif & Hr & Hbest & Hvalues & Hrows); try done.
  simpl in *.
  set (eif := zip_with (ExpectedImprovement.eif_of norm_cdf norm_pdf fm) g sig) in *.
  eexists _, _, _, r, best. split; [exact Hrun|].
  do 3 (split; [done|]).
  apply Exists_exists in Hnan as (x & [c Hc]%list_elem_of_lookup & Hx).
  assert (c ∈ argsort eif) as [p Hp]%list_elem_of_lookup
    by (apply argsort_elem_of; by eapply lookup_lt_Some).
  pose proof (lookup_lt_Some _ _ _ Hp) as Hplt.
  rewrite argsort_length, Heif in Hplt.
  assert (sort_le x best = true) as Hle.
  { apply (argsort_sorted eif p (nrows (ExpectedImprovement.pop self) - 1));
      [lia| |].
    - by rewrite Hp.
    - by rewrite Hr. }
  unfold sort_le in Hle. apply orb_true_iff in Hle as [Hle|Hle]; [done|].
  apply fleb_refl_l in Hle. unfold is_nan in Hx. by rewrite Hle in Hx.
Qed.

End evaluate_function_best.

(** With [min(qoi) = 0] the quotient of the indicator is a division by
    zero: here the largest score is [0.875], the quotient is [inf], and
    the indicator is [False]. *)
Lemma evaluate_function_zero_minimum :
  ExpectedImprovement.evaluate_function Standin.cdf Standin.pdf zero_minimum_learner
    = Ok ({| nrows := 1; ncols := 2; entries := [[-1; 1]]%float |},
          {| nrows := 1; ncols := 1; entries := [[0.875]]%float |},
          false) /\
  ExpectedImprovement.min [0; 2]%float = Ok 0%float /\
  (0.875 / abs 0)%float = infinity /\
  (infinity <=? 0x1p-7)%float = false.
Proof. repeat split; vm_compute; reflexivity. Qed.

Lemma evaluate_function_count_witness :
  exists new_samples values indicator,
    ExpectedImprovement.evaluate_function Standin.cdf Standin.pdf greedy_learner
      = Ok (new_samples, values, indicator) /\
    length (entries new_samples) = nrows new_samples /\
    length (entries values) = nrows new_samples /\
    nrows values = nrows new_samples /\
    let m := Z.of_nat 3 in
    let k := 4%Z in
    ((k <= 0)%Z -> nrows new_samples = 0%nat) /\
    ((0 <= k <= m)%Z -> nrows new_samples = Z.to_nat k) /\
    ((m < k <= 2 * m)%Z -> nrows new_samples = Z.to_nat (k - m)) /\
    ((2 * m <= k)%Z -> nrows new_samples = Z.to_nat m).
Proof.
  apply (evaluate_function_count Standin.cdf Standin.pdf
           greedy_learner [3; 1; 2]%float [1; 1; 1]%float);
    [split; [reflexivity | repeat constructor]
    | simpl; lia | reflexivity | reflexivity | reflexivity | discriminate].
Defined.

(** The run itself: one row comes back, the best one. *)
Lemma greedy_learner_run :
  exists values indicator,
    ExpectedImprovement.evaluate_function Standin.cdf Standin.pdf greedy_learner
      = Ok ({| nrows := 1; ncols := 2; entries := [[1; 0]]%float |}, values, indicator).
Proof. eexists _, _. vm_compute. reflexivity. Qed.

Lemma evaluate_function_errors_witness :
  (length [3; 1; 2]%float <> 3%nat \/ length [1; 1; 1]%float <> 3%nat \/
   [2; 1; 3]%float = [] \/ 3%nat = 0%nat ->
   ExpectedImprovement.evaluate_function Standin.cdf Standin.pdf greedy_learner
     = Raise ValueError) /\
  (length [3; 1; 2]%float = 3%nat -> length [1; 1; 1]%float = 3%nat ->
   [2; 1; 3]%float <> [] -> 3%nat <> 0%nat ->
   exists r,
     ExpectedImprovement.evaluate_function Standin.cdf Standin.pdf greedy_learner
       = Ok r).
Proof.
  apply (evaluate_function_errors Standin.cdf Standin.pdf
           greedy_learner [3; 1; 2]%float [1; 1; 1]%float);
    [split; [reflexivity | repeat constructor] | reflexivity].
Defined.

Lemma evaluate_function_nan_is_last_witness :
  exists new_samples values indicator r best,
    let eif := zip_with (ExpectedImprovement.eif_of Standin.cdf Standin.pdf 1%float)
                 [1; 2]%float [0; 1]%float in
    ExpectedImprovement.evaluate_function Standin.cdf Standin.pdf degenerate_learner
      = Ok (new_samples, values, indicator) /\
    last (entries values) = Some [best] /\
    eif !! r = Some best /\
    last (entries new_samples) = [[1; 0]; [2; 1]]%float !! r /\
    is_nan best = true.
Proof.
  refine (evaluate_function_nan_is_last Standin.cdf Standin.pdf
            degenerate_learner [1; 2]%float [0; 1]%float 1%float
            _ _ _ _ _ _ _ _);
    [split; [reflexivity | repeat constructor]
    | simpl; lia | simpl; lia | reflexivity | reflexivity | reflexivity
    | reflexivity | apply Exists_cons_hd; reflexivity].
Defined.

Lemma evaluate_function_last_is_best_witness :
  exists new_samples values indicator r best top,
    let eif := zip_with (ExpectedImprovement.eif_of Standin.cdf Standin.pdf 1%float)
                 [3; 1; 2]%float [1; 1; 1]%float in
    ExpectedImprovement.evaluate_function Standin.cdf Standin.pdf greedy_learner
      = Ok (new_samples, values, indicator) /\
    last (entries values) = Some [best] /\
    eif !! r = Some best /\
    last (entries new_samples) = [[3; 0]; [1; 0]; [2; 1]]%float !! r /\
    (forall y, y ∈ eif -> (y <=? best)%float = true) /\
    ExpectedImprovement.max eif = Ok top /\
    (top <=? best)%float = true /\ (best <=? top)%float = true /\
    (indicator = true <-> (top / abs 1 <=? 0x1p-7)%float = true).
Proof.
  refine (evaluate_function_last_is_best Standin.cdf Standin.pdf
            greedy_learner [3; 1; 2]%float [1; 1; 1]%float 1%float
            _ _ _ _ _ _ _ _);
    [split; [reflexivity | repeat constructor]
    | simpl; lia | simpl; lia | reflexivity | reflexivity | reflexivity
    | reflexivity | repeat constructor].
Defined.
(** ** Distribution: reading the parameters *)

(** X10.  [get_parameters] and the getters of the properties [parameters]
    and [ordered_parameters] raise [RecursionError] on every object and for
    every recursion limit, also on an object whose setter has just stored
    a dictionary: what the setters store is never read back. *)
Theorem get_parameters_recursion frames self value :
  Distribution.get_parameters frames self = Raise RecursionError /\
  Distribution.get_parameters frames (Distribution.set_parameters self value)
    = Raise RecursionError /\
  Distribution._parameters (Distribution.set_parameters self value) = value /\
  Distribution.parameters frames self = Raise RecursionError /\
  Distribution.ordered_parameters frames self = Raise RecursionError.
Proof.
  unfold Distribution.get_parameters, Distribution.get_parameters_with.
  rewrite !parameters_recursion, ordered_parameters_recursion. done.
Qed.

(** ** Criterion over the rationals

    What the specification says of the bounds and of the strata holds of
    the code read without rounding.  These facts are about
    [Exact.arith]; the binary64 runs [create_bins_bounds_rounded] and
    [create_bins_reaches_upper_bound] show that they are not facts about
    the code as it runs. *)

Section exact_arithmetic.
Context `{!RandomSource Q}.

Lemma inject_nat_nonzero n : (1 <= n)%nat -> ~ (inject_Z (Z.of_nat n) == 0)%Q.
Proof. intros Hn. unfold Qeq; simpl. lia. Qed.

Lemma inject_nat_succ i : (inject_Z (Z.of_nat (S i)) == inject_Z (Z.of_nat i) + 1)%Q.
Proof. rewrite Nat2Z.inj_succ, <- Z.add_1_r, inject_Z_plus. reflexivity. Qed.

Lemma linspace_unit_value n i x :
  (1 <= n)%nat -> (i <= n)%nat ->
  np.linspace (F := Q) 0%num 1%num (n + 1) !! i = Some x -> (x == ratio i n)%Q.
Proof.
  intros Hn Hi Hx. unfold ratio.
  pose proof (inject_nat_nonzero n Hn) as Hnz.
  destruct (decide (i = n)) as [->|Hne].
  - rewrite linspace_lookup_last in Hx by done. simplify_eq. simpl. by field.
  - rewrite linspace_lookup_lt in Hx by lia. simplify_eq. simpl. by field.
Qed.

Lemma ratio_pos n : (1 <= n)%nat -> (0 < ratio 1 n)%Q.
Proof.
  intros Hn. unfold ratio. change (inject_Z (Z.of_nat 1)) with 1%Q.
  unfold Qdiv. rewrite Qmult_1_l. apply Qinv_lt_0_compat.
  unfold Qlt; simpl. lia.
Qed.

(** Stratum [i] of [n]: it starts at [i/n], ends at [(i+1)/n] and is [1/n]
    wide. *)
Lemma bounds_values n i :
  (1 <= n)%nat -> (i < n)%nat ->
  exists x y,
    lower_bounds (F := Q) n !! i = Some x /\ upper_bounds (F := Q) n !! i = Some y /\
    (x == ratio i n)%Q /\ (y == ratio (i + 1) n)%Q /\ (y - x == ratio 1 n)%Q.
Proof.
  intros Hn Hi. unfold lower_bounds, upper_bounds.
  pose proof (linspace_length (F := Q) 0%num 1%num (n + 1)) as Hlen.
  pose proof (inject_nat_nonzero n Hn) as Hnz.
  destruct (lookup_lt_is_Some_2 (np.linspace (F := Q) 0%num 1%num (n + 1)) i)
    as [x Hx]; [lia|].
  destruct (lookup_lt_is_Some_2 (np.linspace (F := Q) 0%num 1%num (n + 1)) (1 + i))
    as [y Hy]; [lia|].
  exists x, y.
  rewrite !lookup_take_lt, lookup_drop by done.
  do 2 (split; [done|]).
  apply linspace_unit_value in Hx; [|lia..].
  apply linspace_unit_value in Hy; [|lia..].
  replace (i + 1)%nat with (1 + i)%nat by lia.
  do 2 (split; [done|]).
  rewrite Hx, Hy. unfold ratio. simpl (1 + i)%nat.
  rewrite inject_nat_succ. change (inject_Z (Z.of_nat 1)) with 1%Q. by field.
Qed.

(** A point [u * (b - a) + a] with [0 <= u < 1] and [a < b] lies in
    [[a, b)]. *)
Lemma stratum_point (u lo hi : Q) :
  (0 <= u)%Q -> (u < 1)%Q -> (0 < hi - lo)%Q ->
  (lo <= u * (hi - lo) + lo)%Q /\ (u * (hi - lo) + lo < hi)%Q.
Proof.
  intros Hu0 Hu1 Hw. split.
  - assert (0 <= u * (hi - lo))%Q by (apply Qmult_le_0_compat; lra). lra.
  - assert (u * (hi - lo) < 1 * (hi - lo))%Q
      by (apply Qmult_lt_compat_r; lra). lra.
Qed.

(** Without rounding, the bounds are the fractions [i/n] and [(i+1)/n],
    each stratum is [1/n] wide, and every entry of the stratified matrix
    lies in the half-open stratum of its row. *)
Lemma create_bins_exact w self m n d :
  (1 <= n)%nat ->
  shape m = [n; d] ->
  Criterion.usable w (Criterion.random_state self) = true ->
  exists w' self' av bv,
    Criterion.create_bins w self m = (w', self', Ok ()) /\
    Criterion.a self' = Criterion.Array av /\
    Criterion.b self' = Criterion.Array bv /\
    (forall i, (i < n)%nat -> exists lo hi,
        av !! i = Some lo /\ bv !! i = Some hi /\
        (lo == ratio i n)%Q /\ (hi == ratio (i + 1) n)%Q /\
        (hi - lo == ratio 1 n)%Q) /\
    (forall i j, (i < n)%nat -> (j < d)%nat -> exists x lo hi,
        np.get (Criterion.samples self') i j = Some x /\
        av !! i = Some lo /\ bv !! i = Some hi /\
        (lo <= x)%Q /\ (x < hi)%Q).
Proof.
  intros Hn Hshape Hus.
  destruct (usable_check _ _ Hus) as [g Hg].
  rewrite (create_bins_run w self m n d g) by done.
  eexists _, _, _, _. split; [reflexivity|]. simpl.
  do 2 (split; [reflexivity|]). split.
  - intros i Hi. by apply bounds_values.
  - intros i j Hi Hj.
    destruct (stratified_matrix_entry n d g i j Hi Hj)
      as (u & lo & hi & Hget & Hdraw & Hlo & Hhi).
    destruct (bounds_values n i Hn Hi) as (lo' & hi' & Hlo' & Hhi' & _ & _ & Hwidth).
    simplify_eq.
    destruct (random_samples_unit (d * n) g u) as [Hu0 Hu1].
    { apply list_elem_of_lookup. eauto. }
    simpl in Hu0, Hu1. apply Qle_bool_iff in Hu0.
    apply negb_true_iff in Hu1.
    assert (u < 1)%Q as Hu1'.
    { apply Qnot_le_lt. intros Hle. apply not_true_iff_false in Hu1.
      apply Hu1, Qle_bool_iff. exact Hle. }
    assert (0 <= u)%Q as Hu0' by exact Hu0.
    destruct (stratum_point u lo hi) as [Hge Hlt]; try done.
    { rewrite Hwidth. by apply ratio_pos. }
    exists (u * (hi - lo) + lo)%Q, lo, hi. by rewrite Hget.
Qed.

End exact_arithmetic.
